(** * HalCamera: the EVS manager's per-device session multiplexer

    A shallow embedding of [evs/manager/1.1/HalCamera.cpp].  One [HalCamera]
    owns the hardware camera session, keeps the list of attached
    [VirtualCamera] clients (as weak pointers), the table of outstanding
    frame records, the per-client fence timelines, the two request queues
    and the master slot.

    The methods are written in a small state-and-failure monad over a
    [Machine]: the [HalCamera] object, the state of the collaborators
    (client objects and hardware driver) and the chronological trace of the
    calls the object made on them.  A method that dereferences a null
    pointer in the source has no result here ([None]). *)

From stdpp Require Import gmap list.
From Stdlib Require Import ZArith Lia.

Local Open Scope Z_scope.

(** ** Machine integers *)

(** [unsigned] on the targets of this code: 32 bits, arithmetic modulo 2^32. *)
Definition wrap32 (z : Z) : Z := z mod 2 ^ 32.

(** Conversion to [int] (two's complement, 32 bits). *)
Definition int32 (z : Z) : Z := (z + 2 ^ 31) mod 2 ^ 32 - 2 ^ 31.

(** The value of an [int64_t] expression: two's complement, 64 bits.
    Overflow of signed arithmetic is undefined in the language; the
    compiled code wraps around, and so does the model. *)
Definition int64 (z : Z) : Z := (z + 2 ^ 63) mod 2 ^ 64 - 2 ^ 63.

(** The declaration of [FrameRecord::refCount] is in [HalCamera.h]; the
    width is 32 bits, the signedness is kept as a parameter of the model. *)
Variant IntKind := SignedInt | UnsignedInt.

Definition normInt (k : IntKind) (z : Z) : Z :=
  match k with
  | SignedInt => int32 z
  | UnsignedInt => wrap32 z
  end.

(** ** Data model *)

(** A [VirtualCamera] object is identified by its address; [nullptr] is 0.
    Both [sp<VirtualCamera>] and [wp<VirtualCamera>] are modelled by the
    address they hold: a weak pointer keeps the address of an object that
    may be gone. *)
Definition nullptr : Z := 0.

Variant EvsResult :=
  | OK
  | INVALID_ARG
  | STREAM_ALREADY_RUNNING
  | BUFFER_NOT_AVAILABLE
  | OWNERSHIP_LOST
  | UNDERLYING_SERVICE_ERROR.

Variant EvsEventType :=
  | STREAM_STARTED
  | STREAM_STOPPED
  | FRAME_DROPPED
  | TIMEOUT
  | PARAMETER_CHANGED
  | MASTER_RELEASED
  | STREAM_ERROR.

Record EvsEventDesc := mkEvent {
  aType : EvsEventType;
  payload0 : Z;
  payload1 : Z
}.

Record BufferDesc := mkBuffer {
  bufferId : Z;
  timestamp : Z
}.

Variant StreamState := STOPPED | RUNNING | STOPPING.

Record FrameRecord := mkFrameRecord {
  frameId : Z;
  refCount : Z
}.

Record FrameRequest := mkFrameRequest {
  client : Z;
  req_timestamp : Z
}.

(** Modelled from the spec: the [UniqueTimeline] class is not part of the
    source file.  "Per-client monotonic synchronization counter exposed to
    the client as a future/fence": a fence is tied to a value of the fence
    counter and is resolved once the timeline counter has reached it. *)
Record UniqueTimeline := mkTimeline {
  timeline_counter : Z;
  fence_counter : Z
}.

Record UniqueFence := mkFence {
  fence_owner : Z;
  fence_value : Z
}.

(** Modelled from the spec: [UniqueTimeline::BumpFenceEventCounter], which
    "reserves a future signal slot". *)
Definition BumpFenceEventCounter (t : UniqueTimeline) : UniqueTimeline :=
  mkTimeline (timeline_counter t) (fence_counter t + 1).

(** Modelled from the spec: [UniqueTimeline::BumpTimelineEventCounter],
    which "advances the timeline" by one event. *)
Definition BumpTimelineEventCounter (t : UniqueTimeline) : UniqueTimeline :=
  mkTimeline (timeline_counter t + 1) (fence_counter t).

(** Modelled from the spec: [UniqueTimeline::CreateFence], "a fence tied to
    that slot". *)
Definition CreateFence (owner : Z) (t : UniqueTimeline) : UniqueFence :=
  mkFence owner (fence_counter t).

(** Modelled from the spec: "advancing the counter signals all outstanding
    futures derived from values <= the new counter". *)
Definition fenceResolved (t : UniqueTimeline) (f : UniqueFence) : bool :=
  fence_value f <=? timeline_counter t.

(** Modelled from the spec: a timeline in "a fully-signaled state" has no
    fence left to signal. *)
Definition fullySignaled (t : UniqueTimeline) : bool :=
  fence_counter t <=? timeline_counter t.

(** The members of [HalCamera] the methods below use.  [mCurrentRequests]
    and [mNextRequests] point to the two request queues of the object and
    hold here the queue they point to.  The three statistics counters are
    declared in [HalCamera.h]; they are only incremented and are kept as
    unbounded integers. *)
Record HalCamera := mkHalCamera {
  mClients : list Z;
  mStreamState : StreamState;
  mFrames : list FrameRecord;
  mMaster : Z;
  mSyncSupported : bool;
  mTimelines : gmap Z UniqueTimeline;
  mCurrentRequests : list FrameRequest;
  mNextRequests : list FrameRequest;
  mFramesReceived : Z;
  mFramesNotUsed : Z;
  mSyncFrames : Z
}.

Definition set_mClients (v : list Z) (h : HalCamera) : HalCamera :=
  mkHalCamera v (mStreamState h) (mFrames h) (mMaster h) (mSyncSupported h)
    (mTimelines h) (mCurrentRequests h) (mNextRequests h)
    (mFramesReceived h) (mFramesNotUsed h) (mSyncFrames h).

Definition set_mStreamState (v : StreamState) (h : HalCamera) : HalCamera :=
  mkHalCamera (mClients h) v (mFrames h) (mMaster h) (mSyncSupported h)
    (mTimelines h) (mCurrentRequests h) (mNextRequests h)
    (mFramesReceived h) (mFramesNotUsed h) (mSyncFrames h).

Definition set_mFrames (v : list FrameRecord) (h : HalCamera) : HalCamera :=
  mkHalCamera (mClients h) (mStreamState h) v (mMaster h) (mSyncSupported h)
    (mTimelines h) (mCurrentRequests h) (mNextRequests h)
    (mFramesReceived h) (mFramesNotUsed h) (mSyncFrames h).

Definition set_mMaster (v : Z) (h : HalCamera) : HalCamera :=
  mkHalCamera (mClients h) (mStreamState h) (mFrames h) v (mSyncSupported h)
    (mTimelines h) (mCurrentRequests h) (mNextRequests h)
    (mFramesReceived h) (mFramesNotUsed h) (mSyncFrames h).

Definition set_mTimelines (v : gmap Z UniqueTimeline) (h : HalCamera)
  : HalCamera :=
  mkHalCamera (mClients h) (mStreamState h) (mFrames h) (mMaster h)
    (mSyncSupported h) v (mCurrentRequests h) (mNextRequests h)
    (mFramesReceived h) (mFramesNotUsed h) (mSyncFrames h).

Definition set_mCurrentRequests (v : list FrameRequest) (h : HalCamera)
  : HalCamera :=
  mkHalCamera (mClients h) (mStreamState h) (mFrames h) (mMaster h)
    (mSyncSupported h) (mTimelines h) v (mNextRequests h)
    (mFramesReceived h) (mFramesNotUsed h) (mSyncFrames h).

Definition set_mNextRequests (v : list FrameRequest) (h : HalCamera)
  : HalCamera :=
  mkHalCamera (mClients h) (mStreamState h) (mFrames h) (mMaster h)
    (mSyncSupported h) (mTimelines h) (mCurrentRequests h) v
    (mFramesReceived h) (mFramesNotUsed h) (mSyncFrames h).

Definition set_mFramesReceived (v : Z) (h : HalCamera) : HalCamera :=
  mkHalCamera (mClients h) (mStreamState h) (mFrames h) (mMaster h)
    (mSyncSupported h) (mTimelines h) (mCurrentRequests h) (mNextRequests h)
    v (mFramesNotUsed h) (mSyncFrames h).

Definition set_mFramesNotUsed (v : Z) (h : HalCamera) : HalCamera :=
  mkHalCamera (mClients h) (mStreamState h) (mFrames h) (mMaster h)
    (mSyncSupported h) (mTimelines h) (mCurrentRequests h) (mNextRequests h)
    (mFramesReceived h) v (mSyncFrames h).

Definition set_mSyncFrames (v : Z) (h : HalCamera) : HalCamera :=
  mkHalCamera (mClients h) (mStreamState h) (mFrames h) (mMaster h)
    (mSyncSupported h) (mTimelines h) (mCurrentRequests h) (mNextRequests h)
    (mFramesReceived h) (mFramesNotUsed h) v.

(** A freshly constructed object. *)
Definition newHalCamera (sync : bool) : HalCamera :=
  mkHalCamera [] STOPPED [] nullptr sync ∅ [] [] 0 0 0.

(** ** Collaborators *)

(** What the object does to the outside, in the order it does it. *)
Variant Effect :=
  | HwSetMaxFramesInFlight (bufferCount : Z)
  | HwStartVideoStream
  | HwStopVideoStream
  | HwDoneWithFrame (b : BufferDesc)
  | HwDoneWithFrame_1_1 (bs : list BufferDesc)
  | HwSetIntParameter (id value : Z)
  | HwGetIntParameter (id : Z)
  | VcDeliverFrame (vc : Z) (b : BufferDesc) (accepted : bool)
  | VcNotify (vc : Z) (e : EvsEventDesc)
  | TimelineDestroyed (vc : Z) (t : UniqueTimeline).

(** The client objects and the hardware camera are outside this file: they
    are an interface over an arbitrary state [World].  A call may change
    that state. *)
Class Collaborators (World : Type) := {
  (** the object at this address still exists ([wp::promote] succeeds) *)
  vc_alive : World -> Z -> bool;
  vc_getAllowedBuffers : World -> Z -> Z;
  vc_getVersion : World -> Z -> Z;
  vc_isStreaming : World -> Z -> bool;
  vc_deliverFrame : World -> Z -> BufferDesc -> bool * World;
  vc_notify : World -> Z -> EvsEventDesc -> bool * World;
  (** [true] when the call went through and answered [EvsResult::OK] *)
  hw_setMaxFramesInFlight : World -> Z -> bool * World;
  hw_startVideoStream : World -> EvsResult * World;
  (** status and [readValue[0]] handed to the callback *)
  hw_setIntParameter : World -> Z -> Z -> (EvsResult * Z) * World;
  hw_getIntParameter : World -> Z -> (EvsResult * Z) * World
}.

Definition EvsResult_eqb (a b : EvsResult) : bool :=
  match a, b with
  | OK, OK | INVALID_ARG, INVALID_ARG
  | STREAM_ALREADY_RUNNING, STREAM_ALREADY_RUNNING
  | BUFFER_NOT_AVAILABLE, BUFFER_NOT_AVAILABLE
  | OWNERSHIP_LOST, OWNERSHIP_LOST
  | UNDERLYING_SERVICE_ERROR, UNDERLYING_SERVICE_ERROR => true
  | _, _ => false
  end.

Definition isStreamStopped (t : EvsEventType) : bool :=
  match t with STREAM_STOPPED => true | _ => false end.

Definition isStopped (s : StreamState) : bool :=
  match s with STOPPED => true | _ => false end.


(** ** The monad of the methods *)

Record Machine (World : Type) := mkMachine {
  cam : HalCamera;
  world : World;
  trace : list Effect
}.
Arguments mkMachine {World} _ _ _.
Arguments cam {World} _.
Arguments world {World} _.
Arguments trace {World} _.

(** A computation over a state [S] that may have no result. *)
Definition M (S A : Type) : Type := S -> option (A * S).

Definition ret {S A} (a : A) : M S A := fun s => Some (a, s).

Definition bind {S A B} (c : M S A) (k : A -> M S B) : M S B :=
  fun s => match c s with
           | Some (a, s') => k a s'
           | None => None
           end.

(** Dereferencing a null pointer. *)
Definition crash {S A} : M S A := fun _ => None.

Notation "'let*' x ':=' c 'in' k" := (bind c (fun x => k))
  (at level 10, x name, c at level 100, k at level 200,
   format "'[v' 'let*'  x  ':='  c  'in' '/' k ']'").

Section Methods.
Context {World : Type} `{!Collaborators World}.

(** Signedness of [FrameRecord::refCount]. *)
Variable refKind : IntKind.

Local Abbreviation Op := (M (Machine World)).

Definition getCam : Op HalCamera := fun m => Some (cam m, m).

Definition getWorld : Op World := fun m => Some (world m, m).

Definition modifyCam (f : HalCamera -> HalCamera) : Op unit :=
  fun m => Some (tt, mkMachine (f (cam m)) (world m) (trace m)).

Definition emit (e : Effect) : Op unit :=
  fun m => Some (tt, mkMachine (cam m) (world m) (trace m ++ [e])).

(** A call on a collaborator: it answers and moves on; the call is
    appended to the trace with what [log] makes of the answer. *)
Definition call {A} (f : World -> A * World) (log : A -> Effect) : Op A :=
  fun m => let r := f (world m) in
           Some (r.1, mkMachine (cam m) r.2 (trace m ++ [log r.1])).

(** [wp<VirtualCamera>::promote()]: the address, or [nullptr] when the
    object is gone. *)
Definition promote (w : World) (p : Z) : Z :=
  if p =? nullptr then nullptr
  else if vc_alive w p then p else nullptr.

(** *** changeFramesInFlight(int delta) *)

(** One turn of the loop over [mClients]. *)
Definition countAllowed (w : World) (bufferCount client : Z) : Z :=
  let virtCam := promote w client in
  if virtCam =? nullptr then bufferCount
  else wrap32 (bufferCount + vc_getAllowedBuffers w virtCam).

(** The buffer count asked of the hardware. *)
Definition requestedBufferCount (w : World) (clients : list Z) (delta : Z)
  : Z :=
  let bufferCount := fold_left (countAllowed w) clients 0 in
  let bufferCount := wrap32 (bufferCount + delta) in
  if bufferCount <? 1 then 1 else bufferCount.

Definition isActive (rec : FrameRecord) : bool := 0 <? refCount rec.

Definition changeFramesInFlight (delta : Z) : Op bool :=
  let* h := getCam in
  let* w := getWorld in
  let bufferCount := requestedBufferCount w (mClients h) delta in
  let* success := call (fun w => hw_setMaxFramesInFlight w bufferCount)
                       (fun _ => HwSetMaxFramesInFlight bufferCount) in
  if success : bool then
    let newRecords := List.filter isActive (mFrames h) in
    let* _ := modifyCam (set_mFrames newRecords) in
    ret true
  else ret false.

(** *** ownVirtualCamera / disownVirtualCamera *)

(** [make_unique<UniqueTimeline>(0)] never yields a null pointer: the
    timeline starts with both counters at the offset 0.  The assignment
    to [mTimelines[...]] destroys the timeline that was stored under the
    same key, if there was one. *)
Definition ownVirtualCamera (virtualCamera : Z) : Op bool :=
  if virtualCamera =? nullptr then ret false
  else
    let* w := getWorld in
    let* ok :=
      changeFramesInFlight (int32 (vc_getAllowedBuffers w virtualCamera)) in
    if negb ok then ret false
    else
      let* h := getCam in
      let* _ :=
        if mSyncSupported h then
          let* _ :=
            match mTimelines h !! virtualCamera with
            | Some old => emit (TimelineDestroyed virtualCamera old)
            | None => ret tt
            end in
          modifyCam (fun h =>
            set_mTimelines (<[virtualCamera := mkTimeline 0 0]> (mTimelines h)) h)
        else ret tt in
      let* _ := modifyCam (fun h =>
                  set_mClients (mClients h ++ [virtualCamera]) h) in
      ret true.

Definition disownVirtualCamera (virtualCamera : Z) : Op unit :=
  if virtualCamera =? nullptr then ret tt
  else
    let* _ := modifyCam (fun h =>
                set_mClients
                  (List.filter (fun c => negb (c =? virtualCamera)) (mClients h))
                  h) in
    let* _ := changeFramesInFlight 0 in
    ret tt.

(** *** requestNewFrame *)

Definition requestNewFrame (client lastTimestamp : Z)
  : Op (option UniqueFence) :=
  let* h := getCam in
  if negb (mSyncSupported h) then ret None
  else
    let req := mkFrameRequest client lastTimestamp in
    match mTimelines h !! client with
    | None => crash
    | Some t =>
        let t' := BumpFenceEventCounter t in
        let fence := CreateFence client t' in
        let* _ := modifyCam (fun h =>
                    set_mNextRequests (mNextRequests h ++ [req])
                      (set_mTimelines (<[client := t']> (mTimelines h)) h)) in
        ret (Some fence)
    end.

(** *** clientStreamStarting / clientStreamEnding *)

Definition clientStreamStarting : Op EvsResult :=
  let* h := getCam in
  if isStopped (mStreamState h) then
    let* _ := modifyCam (set_mStreamState RUNNING) in
    call hw_startVideoStream (fun _ => HwStartVideoStream)
  else ret OK.

(** The queue without its first request of [c]; [None] when the search
    reaches [end()]. *)
Fixpoint eraseRequest (c : Z) (reqs : list FrameRequest)
  : option (list FrameRequest) :=
  match reqs with
  | [] => None
  | r :: rest =>
      if client r =? c then Some rest
      else match eraseRequest c rest with
           | Some rest' => Some (r :: rest')
           | None => None
           end
  end.

(** The client list without its first entry that promotes to [c]. *)
Fixpoint eraseClient (w : World) (c : Z) (clients : list Z) : list Z :=
  match clients with
  | [] => []
  | x :: rest =>
      if promote w x =? c then rest else x :: eraseClient w c rest
  end.

Definition stillStreaming (w : World) (acc : bool) (client : Z) : bool :=
  let virtCam := promote w client in
  if virtCam =? nullptr then acc else acc || vc_isStreaming w virtCam.

Definition clientStreamEnding (c : Z) : Op unit :=
  let* h := getCam in
  let* w := getWorld in
  let* _ :=
    match eraseRequest c (mNextRequests h) with
    | Some reqs =>
        let* _ := modifyCam (set_mNextRequests reqs) in
        match mTimelines h !! c with
        | Some t =>
            let* _ := emit (TimelineDestroyed c (BumpTimelineEventCounter t)) in
            modifyCam (set_mTimelines (delete c (mTimelines h)))
        | None => ret tt
        end
    | None => ret tt
    end in
  let* _ := modifyCam (fun h =>
              set_mClients (eraseClient w c (mClients h)) h) in
  let* h := getCam in
  let stillRunning := fold_left (stillStreaming w) (mClients h) false in
  if stillRunning then ret tt
  else
    let* _ := modifyCam (set_mStreamState STOPPING) in
    emit HwStopVideoStream.

(** *** doneWithFrame *)

(** Index of the first record with this [frameId]; the size of the table
    when there is none. *)
Fixpoint findFrame (id : Z) (frames : list FrameRecord) : nat :=
  match frames with
  | [] => 0%nat
  | rec :: rest => if frameId rec =? id then 0%nat else S (findFrame id rest)
  end.

(** [mFrames[i].refCount--] *)
Definition releaseRecord (rec : FrameRecord) : FrameRecord :=
  mkFrameRecord (frameId rec) (normInt refKind (refCount rec - 1)).

Definition doneWithFrame (buffer : BufferDesc) : Op unit :=
  let* h := getCam in
  let i := findFrame (bufferId buffer) (mFrames h) in
  match mFrames h !! i with
  | None => ret tt
  | Some rec =>
      let rec' := releaseRecord rec in
      let* _ := modifyCam (set_mFrames (<[i := rec']> (mFrames h))) in
      if refCount rec' <=? 0 then emit (HwDoneWithFrame buffer) else ret tt
  end.

Definition doneWithFrame_1_1 (buffer : BufferDesc) : Op unit :=
  let* h := getCam in
  let i := findFrame (bufferId buffer) (mFrames h) in
  match mFrames h !! i with
  | None => ret tt
  | Some rec =>
      let rec' := releaseRecord rec in
      let* _ := modifyCam (set_mFrames (<[i := rec']> (mFrames h))) in
      if refCount rec' <=? 0 then
        let returnedBuffers := [buffer] in
        emit (HwDoneWithFrame_1_1 returnedBuffers)
      else ret tt
  end.

(** *** deliverFrame / deliverFrame_1_1 *)

Definition deliverFrame (buffer : BufferDesc) : Op unit :=
  emit (HwDoneWithFrame buffer).

Definition kThreshold : Z := 16 * 1000.

(** The body of the loop over the swapped request queue, after the
    request was popped.  Timestamps are 64-bit signed integers and so is
    their difference. *)
Definition serveRequest (b : BufferDesc) (req : FrameRequest)
    (frameDeliveriesV1 : Z) : Op Z :=
  let* w := getWorld in
  let vCam := promote w (client req) in
  if vCam =? nullptr then ret frameDeliveriesV1
  else if int64 (timestamp b - req_timestamp req) <? kThreshold then
    let* _ := modifyCam (fun h =>
                set_mNextRequests (mNextRequests h ++ [req]) h) in
    let* _ := modifyCam (fun h => set_mSyncFrames (mSyncFrames h + 1) h) in
    ret frameDeliveriesV1
  else
    let* accepted := call (fun w => vc_deliverFrame w vCam b)
                          (VcDeliverFrame vCam b) in
    if accepted : bool then
      let* h := getCam in
      match mTimelines h !! vCam with
      | None => crash
      | Some t =>
          let* _ := modifyCam (set_mTimelines
                      (<[vCam := BumpTimelineEventCounter t]> (mTimelines h))) in
          ret (wrap32 (frameDeliveriesV1 + 1))
      end
    else ret frameDeliveriesV1.

Fixpoint drainRequests (b : BufferDesc) (reqs : list FrameRequest)
    (frameDeliveriesV1 : Z) : Op Z :=
  match reqs with
  | [] => ret frameDeliveriesV1
  | req :: rest =>
      let* _ := modifyCam (set_mCurrentRequests rest) in
      let* n := serveRequest b req frameDeliveriesV1 in
      drainRequests b rest n
  end.

(** The loop over [mClients]: clients without fence-based delivery. *)
Fixpoint forwardFrame (b : BufferDesc) (sync : bool) (clients : list Z)
    (frameDeliveries : Z) : Op Z :=
  match clients with
  | [] => ret frameDeliveries
  | c :: rest =>
      let* w := getWorld in
      let vCam := promote w c in
      if (vCam =? nullptr) || (sync && (0 <? vc_getVersion w vCam)) then
        forwardFrame b sync rest frameDeliveries
      else
        let* accepted := call (fun w => vc_deliverFrame w vCam b)
                              (VcDeliverFrame vCam b) in
        forwardFrame b sync rest
          (if accepted : bool then wrap32 (frameDeliveries + 1)
           else frameDeliveries)
  end.

(** Index of the first record with [refCount == 0]; the size of the
    table when there is none. *)
Fixpoint findFree (frames : list FrameRecord) : nat :=
  match frames with
  | [] => 0%nat
  | rec :: rest => if refCount rec =? 0 then 0%nat else S (findFree rest)
  end.

(** The tracking entry for an accepted frame. *)
Definition trackFrame (id frameDeliveries : Z) (frames : list FrameRecord)
  : list FrameRecord :=
  let i := findFree frames in
  let rec := mkFrameRecord id (normInt refKind frameDeliveries) in
  if (i =? length frames)%nat then frames ++ [rec]
  else <[i := rec]> frames.

(** Both delivery tracks; the result is [frameDeliveries] after
    [frameDeliveries += frameDeliveriesV1]. *)
Definition fanOut (b : BufferDesc) : Op Z :=
  let* h := getCam in
  let* frameDeliveriesV1 :=
    if mSyncSupported h then
      let* _ := modifyCam (fun h =>
                  set_mCurrentRequests (mNextRequests h)
                    (set_mNextRequests (mCurrentRequests h) h)) in
      drainRequests b (mNextRequests h) 0
    else ret 0 in
  let* _ := modifyCam (fun h =>
              set_mFramesReceived (mFramesReceived h + 1) h) in
  let* frameDeliveries :=
    forwardFrame b (mSyncSupported h) (mClients h) 0 in
  ret (wrap32 (frameDeliveries + frameDeliveriesV1)).

Definition deliverFrame_1_1 (buffer : list BufferDesc) : Op unit :=
  match buffer with
  | [] => crash
  | b :: _ =>
      let* frameDeliveries := fanOut b in
      if frameDeliveries <? 1 then
        let* _ := modifyCam (fun h =>
                    set_mFramesNotUsed (mFramesNotUsed h + 1) h) in
        emit (HwDoneWithFrame_1_1 buffer)
      else
        modifyCam (fun h =>
          set_mFrames (trackFrame (bufferId b) frameDeliveries (mFrames h)) h)
  end.

(** *** notify *)

Fixpoint forwardEvent (event : EvsEventDesc) (clients : list Z) : Op unit :=
  match clients with
  | [] => ret tt
  | c :: rest =>
      let* w := getWorld in
      let vCam := promote w c in
      if vCam =? nullptr then forwardEvent event rest
      else
        let* _ := call (fun w => vc_notify w vCam event)
                       (fun _ => VcNotify vCam event) in
        forwardEvent event rest
  end.

Definition notify (event : EvsEventDesc) : Op unit :=
  let* _ :=
    if isStreamStopped (aType event) then
      modifyCam (set_mStreamState STOPPED)
    else ret tt in
  let* h := getCam in
  forwardEvent event (mClients h).

(** *** Master role *)

Definition setMaster (virtualCamera : Z) : Op EvsResult :=
  let* h := getCam in
  if mMaster h =? nullptr then
    let* _ := modifyCam (set_mMaster virtualCamera) in
    ret OK
  else ret OWNERSHIP_LOST.

(** The payload of the MASTER_RELEASED events is left unset by the source;
    it is 0 here. *)
Definition forceMaster (virtualCamera : Z) : Op EvsResult :=
  let* h := getCam in
  let* w := getWorld in
  let prevMaster := promote w (mMaster h) in
  let* _ :=
    if prevMaster =? virtualCamera then ret tt
    else
      let* _ := modifyCam (set_mMaster virtualCamera) in
      if negb (prevMaster =? nullptr) then
        let event := mkEvent MASTER_RELEASED 0 0 in
        let* _ := call (fun w => vc_notify w prevMaster event)
                       (fun _ => VcNotify prevMaster event) in
        ret tt
      else ret tt in
  ret OK.

Definition unsetMaster (virtualCamera : Z) : Op EvsResult :=
  let* h := getCam in
  let* w := getWorld in
  if negb (promote w (mMaster h) =? virtualCamera) then ret INVALID_ARG
  else
    let* _ := modifyCam (set_mMaster nullptr) in
    let event := mkEvent MASTER_RELEASED 0 0 in
    let* _ := notify event in
    ret OK.

(** *** Parameters *)

(** The result and the caller's [value] after the call. *)
Definition getParameter (id value : Z) : Op (EvsResult * Z) :=
  let* r := call (fun w => hw_getIntParameter w id)
                 (fun _ => HwGetIntParameter id) in
  let result := r.1 in
  ret (result, if EvsResult_eqb result OK then r.2 else value).

Definition setParameter (virtualCamera id value : Z)
  : Op (EvsResult * Z) :=
  let* h := getCam in
  let* w := getWorld in
  if virtualCamera =? promote w (mMaster h) then
    let* r := call (fun w => hw_setIntParameter w id value)
                   (fun _ => HwSetIntParameter id value) in
    let result := r.1 in
    let value := r.2 in
    let* _ :=
      if EvsResult_eqb result OK then
        let event := mkEvent PARAMETER_CHANGED (wrap32 id) (wrap32 value) in
        notify event
      else ret tt in
    ret (result, value)
  else
    let* r := getParameter id value in
    ret (INVALID_ARG, r.2).

End Methods.

(** ** Specification-side notions *)

Section Notions.
Context {World : Type} `{!Collaborators World}.

(** The entries of the membership list whose object still exists. *)
Definition liveClients (w : World) (clients : list Z) : list Z :=
  List.filter (fun c => negb (promote w c =? nullptr)) clients.

(** Sum of the declared allowances of the live entries, as a number. *)
Definition liveAllowanceSum (w : World) (clients : list Z) : Z :=
  foldr Z.add 0 (map (vc_getAllowedBuffers w) (liveClients w clients)).

(** The accepted deliveries among a run of calls. *)
Fixpoint acceptances (evs : list Effect) : Z :=
  match evs with
  | [] => 0
  | VcDeliverFrame _ _ true :: rest => 1 + acceptances rest
  | _ :: rest => acceptances rest
  end.

(** The clients of the queued requests. *)
Definition requesters (reqs : list FrameRequest) : list Z :=
  map client reqs.

(** The machine with [c] in the master slot. *)
Definition withMaster (c : Z) (m : Machine World) : Machine World :=
  mkMachine (set_mMaster c (cam m)) (world m) (trace m).

(** The events sent to the client [vc] among a run of calls. *)
Definition notificationsTo (vc : Z) (evs : list Effect) : list EvsEventDesc :=
  omap (fun e => match e with
                 | VcNotify c ev => if c =? vc then Some ev else None
                 | _ => None
                 end) evs.

(** The same event sent to each of [clients], in order. *)
Definition broadcast (event : EvsEventDesc) (clients : list Z) : list Effect :=
  map (fun c => VcNotify c event) clients.

(** A call that hands a frame to a client. *)
Definition isDelivery (e : Effect) : Prop :=
  match e with
  | VcDeliverFrame _ _ _ => True
  | _ => False
  end.




(** The machine after [std::swap(mCurrentRequests, mNextRequests)]. *)
Definition swapped (m : Machine World) : Machine World :=
  mkMachine
    (set_mCurrentRequests (mNextRequests (cam m))
       (set_mNextRequests (mCurrentRequests (cam m)) (cam m)))
    (world m) (trace m).

(** Handling an event destroys no client object and creates none. *)
Definition notifyKeepsClients : Prop :=
  forall (w : World) c e c',
    vc_alive (vc_notify w c e).2 c' = vc_alive w c'.
End Notions.
Arguments notifyKeepsClients World {_}.

(** ** A test bench

    A concrete world for examples: which objects exist, what each client
    declares and answers, and how the hardware answers. *)
Record Bench := mkBench {
  bench_alive : list Z;
  bench_allowed : Z;
  bench_version : Z;
  bench_streaming : bool;
  bench_accepting : list Z;
  bench_resize_ok : bool;
  bench_param_status : EvsResult;
  bench_param_value : Z
}.

Definition memZ (x : Z) (l : list Z) : bool := existsb (Z.eqb x) l.

#[export] Instance Bench_Collaborators : Collaborators Bench := {
  vc_alive w c := memZ c (bench_alive w);
  vc_getAllowedBuffers w _ := bench_allowed w;
  vc_getVersion w _ := bench_version w;
  vc_isStreaming w _ := bench_streaming w;
  vc_deliverFrame w c _ := (memZ c (bench_accepting w), w);
  vc_notify w _ _ := (true, w);
  hw_setMaxFramesInFlight w _ := (bench_resize_ok w, w);
  hw_startVideoStream w := (OK, w);
  hw_setIntParameter w _ _ := ((bench_param_status w, bench_param_value w), w);
  hw_getIntParameter w _ := ((bench_param_status w, bench_param_value w), w)
}.

(** Clients 10 and 20 exist, allow two buffers each, are fence-aware and
    accept every frame; the hardware agrees to everything. *)
Definition bench0 : Bench := mkBench [10; 20] 2 1 true [10; 20] true OK 7.

Definition start (h : HalCamera) (w : Bench) : Machine Bench :=
  mkMachine h w [].

(** A session with clients 10 and 20 attached and [c] in the master slot. *)
Definition masterIs (c : Z) : HalCamera :=
  set_mMaster c (set_mClients [10; 20] (newHalCamera true)).

(** Client 10 alone, a v1.0 client that accepts every frame, on a session
    without fence support. *)
Definition bench1 : Bench := mkBench [10] 2 0 true [10] true OK 7.

Definition frame7 : BufferDesc := mkBuffer 7 100000.

(** Clients 10 and 20 as in [bench0], but client 20 declines frames. *)
Definition bench2 : Bench := mkBench [10; 20] 2 1 true [10] true OK 7.

(** A fence-aware session with clients 10 and 20 attached, one fence
    handed out to each, and [reqs] waiting in the next queue. *)
Definition fenced (reqs : list FrameRequest) : HalCamera :=
  set_mNextRequests reqs
    (set_mTimelines (<[10 := mkTimeline 0 1]> (<[20 := mkTimeline 0 1]> ∅))
       (set_mClients [10; 20] (newHalCamera true))).

(** What a run produced: the object and the calls made. *)
Definition camOf {W A} (r : option (A * Machine W)) : option HalCamera :=
  option_map (fun x => cam x.2) r.

Definition effectsOf {W A} (r : option (A * Machine W))
  : option (list Effect) :=
  option_map (fun x => trace x.2) r.

(** Running one method after another; the results are dropped. *)
Definition andThen {S A B} (c : M S A) (k : M S B) : M S B :=
  bind c (fun _ => k).

(** Frame 7 goes to client 10, which signals completion twice. *)
Definition doneTwice (k : IntKind) : option (unit * Machine Bench) :=
  andThen (deliverFrame_1_1 k [frame7])
    (andThen (doneWithFrame_1_1 k frame7) (doneWithFrame_1_1 k frame7))
    (start (set_mClients [10] (newHalCamera false)) bench1).

(** ** Calls on the object *)

Section Calls.
Context {World : Type} `{!Collaborators World}.
Variable refKind : IntKind.

(** The entry points that touch the request queues, the timelines and
    the frame records. *)
Variant Call :=
  | CallOwn (virtualCamera : Z)
  | CallDisown (virtualCamera : Z)
  | CallRequestNewFrame (client lastTimestamp : Z)
  | CallStreamEnding (client : Z)
  | CallDeliverFrame (buffer : list BufferDesc)
  | CallDoneWithFrame (buffer : BufferDesc).

Definition perform (call : Call) : M (Machine World) unit :=
  match call with
  | CallOwn vc => let* _ := ownVirtualCamera vc in ret tt
  | CallDisown vc => disownVirtualCamera vc
  | CallRequestNewFrame c ts => let* _ := requestNewFrame c ts in ret tt
  | CallStreamEnding c => clientStreamEnding c
  | CallDeliverFrame buffer => deliverFrame_1_1 refKind buffer
  | CallDoneWithFrame buffer => doneWithFrame_1_1 refKind buffer
  end.

(** A client asks for the next frame only when it has no request
    waiting. *)
Definition polite (call : Call) (m : Machine World) : bool :=
  match call with
  | CallRequestNewFrame c _ =>
      negb (memZ c (requesters (mNextRequests (cam m))))
  | _ => true
  end.

(** The states a session goes through under polite calls. *)
Inductive reachable (m0 : Machine World) : Machine World -> Prop :=
  | reach_start : reachable m0 m0
  | reach_call m call m' :
      reachable m0 m ->
      polite call m = true ->
      perform call m = Some (tt, m') ->
      reachable m0 m'.

(** At most one queued request per client, and nothing left in the
    queue being drained. *)
Definition oneRequestEach (h : HalCamera) : Prop :=
  NoDup (requesters (mNextRequests h)) /\ mCurrentRequests h = [].

Fixpoint performAll (calls : list Call) (m : Machine World)
  : option (Machine World) :=
  match calls with
  | [] => Some m
  | call :: rest =>
      match perform call m with
      | Some (_, m') => performAll rest m'
      | None => None
      end
  end.

(** The same, refusing a call that is not polite. *)
Fixpoint performPolitely (calls : list Call) (m : Machine World)
  : option (Machine World) :=
  match calls with
  | [] => Some m
  | call :: rest =>
      if polite call m then
        match perform call m with
        | Some (_, m') => performPolitely rest m'
        | None => None
        end
      else None
  end.
End Calls.

(** Client 10 attaches and asks for the next frame twice. *)
Definition askTwice : option (Machine Bench) :=
  performAll SignedInt
    [CallOwn 10; CallRequestNewFrame 10 0; CallRequestNewFrame 10 0]
    (start (newHalCamera true) bench0).

(** ... and then ends its stream. *)
Definition askTwiceAndEnd : option (Machine Bench) :=
  performAll SignedInt
    [CallOwn 10; CallRequestNewFrame 10 0; CallRequestNewFrame 10 0;
     CallStreamEnding 10]
    (start (newHalCamera true) bench0).

(** Client 20 attaches, asks once, declines the frame that arrives and
    ends its stream. *)
Definition declineAndEnd : option (Machine Bench) :=
  performAll SignedInt
    [CallOwn 20; CallRequestNewFrame 20 0; CallDeliverFrame [frame7];
     CallStreamEnding 20]
    (start (newHalCamera true) bench2).

(** ** Further entry points and notions *)

Section Creation.
Context {World : Type} `{!Collaborators World}.

(** [makeVirtualCamera]: [client] is the address of the object that
    [new VirtualCamera] constructed. *)
Definition makeVirtualCamera (client : Z) : M (Machine World) Z :=
  if client =? nullptr then ret nullptr
  else
    let* owned := ownVirtualCamera client in
    if negb owned then ret nullptr else ret client.

(** A method called [n] times in a row. *)
Fixpoint times (n : nat) (op : M (Machine World) unit)
  : M (Machine World) unit :=
  match n with
  | O => ret tt
  | S n' => let* _ := op in times n' op
  end.

(** The membership list without every entry equal to [vc]
    ([std::list::remove]). *)
Definition without (vc : Z) (clients : list Z) : list Z :=
  List.filter (fun c => negb (c =? vc)) clients.

(** The buffer counts asked of the hardware among a run of calls. *)
Definition resizeRequests (evs : list Effect) : list Z :=
  omap (fun e => match e with
                 | HwSetMaxFramesInFlight n => Some n
                 | _ => None
                 end) evs.

(** The clients a frame was offered to among a run of calls. *)
Definition offeredTo (evs : list Effect) : list Z :=
  omap (fun e => match e with
                 | VcDeliverFrame c _ _ => Some c
                 | _ => None
                 end) evs.

(** The buffers handed back to the hardware among a run of calls. *)
Definition returnedBuffers (evs : list Effect) : list BufferDesc :=
  mbind (fun e => match e with
                  | HwDoneWithFrame b => [b]
                  | HwDoneWithFrame_1_1 bs => bs
                  | _ => []
                  end) evs.

(** The members the loop over [mClients] of deliverFrame_1_1 offers the
    frame to: live, and not fence-aware when the session supports
    fences. *)
Definition directClients (w : World) (sync : bool) (clients : list Z)
  : list Z :=
  List.filter
    (fun c => negb ((promote w c =? nullptr)
                    || sync && (0 <? vc_getVersion w (promote w c))))
    clients.

(** Offering a frame to a client destroys no client object, creates none
    and changes no client's interface version. *)
Definition deliverKeepsClients : Prop :=
  forall (w : World) c b c',
    vc_alive (vc_deliverFrame w c b).2 c' = vc_alive w c'
    /\ vc_getVersion (vc_deliverFrame w c b).2 c'
       = vc_getVersion w c'.

(** No live entry of the list is streaming. *)
Definition noneStreaming (w : World) (clients : list Z) : Prop :=
  forall x, x ∈ clients -> promote w x <> nullptr ->
            vc_isStreaming w (promote w x) = false.

(** The hardware's "stream stopped" event. *)
Definition streamStopped : EvsEventDesc := mkEvent STREAM_STOPPED 0 0.

(** The event sent around when the master role is given up. *)
Definition masterReleased : EvsEventDesc := mkEvent MASTER_RELEASED 0 0.

(** What the trace gains when [vc] is given a timeline: the timeline it
    had before, if any, is destroyed by the assignment. *)
Definition replacedTimeline (h : HalCamera) (vc : Z) : list Effect :=
  if mSyncSupported h then
    match mTimelines h !! vc with
    | Some old => [TimelineDestroyed vc old]
    | None => []
    end
  else [].






End Creation.
Arguments deliverKeepsClients World {_}.

(** The calls that make the object ask the hardware for a buffer count. *)
Definition resizes (call : Call) : bool :=
  match call with
  | CallOwn _ | CallDisown _ => true
  | _ => false
  end.

(** Clients 10 and 20 exist and are not streaming. *)
Definition benchIdle : Bench := mkBench [10; 20] 2 1 false [10; 20] true OK 7.

(** Client 10 exists; the hardware refuses every buffer count. *)
Definition benchRefusing : Bench := mkBench [10] 2 1 true [10] false OK 7.

(** Clients 10 and 20 are v1.0 clients; client 20 declines frames. *)
Definition benchOld : Bench := mkBench [10; 20] 2 0 true [10] true OK 7.

(** A session without fence support, clients 10 and 20 attached, frame 7
    held by two clients and a stale record of frame 8. *)
Definition holding : HalCamera :=
  set_mFrames [mkFrameRecord 7 2; mkFrameRecord 8 0]
    (set_mClients [10; 20] (newHalCamera false)).

(** Client 10 attaches, asks for a frame, gets it, and detaches. *)
Definition shortSession : list Call :=
  [CallOwn 10; CallRequestNewFrame 10 0; CallDeliverFrame [frame7];
   CallDoneWithFrame frame7; CallDisown 10].


(** ** Running the monad in proofs *)

Ltac run_op :=
  unfold bind, ret, getCam, getWorld, modifyCam, emit, call, crash;
  cbn [cam world trace fst snd].

Ltac exists_evs evs :=
  eexists _, evs; split; [reflexivity|]; cbn;
  rewrite <- ?app_assoc, ?app_nil_r; auto 10.

Ltac split_cases :=
  repeat (match goal with
          | |- context [if ?x then _ else _] => destruct x eqn:?
          | |- context [match ?x with _ => _ end] => destruct x eqn:?
          end; cbn [cam world trace fst snd]).

Ltac no_resize :=
  first [ exists (@nil Effect); split;
          [symmetry; apply app_nil_r | reflexivity]
        | eexists [_]; split; reflexivity ].

(** * Properties *)

(** ** Buffer demand *)

Section Demand.
Context {World : Type} `{!Collaborators World}.

Lemma wrap32_range z : 0 <= wrap32 z < 2 ^ 32.
Proof. unfold wrap32. apply Z.mod_pos_bound. lia. Qed.

Lemma wrap32_small z : 0 <= z < 2 ^ 32 -> wrap32 z = z.
Proof. intros Hz. unfold wrap32. apply Z.mod_small. exact Hz. Qed.

Lemma wrap32_add_l a b : wrap32 (wrap32 a + b) = wrap32 (a + b).
Proof. unfold wrap32. apply Zplus_mod_idemp_l. Qed.

Lemma countAllowed_fold w clients : forall acc,
  0 <= acc < 2 ^ 32 ->
  fold_left (countAllowed w) clients acc
  = wrap32 (acc + liveAllowanceSum w clients).
Proof.
  unfold liveAllowanceSum, liveClients.
  induction clients as [|c clients IH]; intros acc Hacc; simpl.
  - rewrite Z.add_0_r, wrap32_small; auto.
  - unfold countAllowed at 2.
    destruct (promote w c =? nullptr) eqn:Hdead; simpl.
    + apply IH; assumption.
    + rewrite IH by apply wrap32_range.
      rewrite wrap32_add_l. f_equal.
      apply Z.eqb_neq in Hdead.
      assert (Hp : promote w c = c).
      { revert Hdead. unfold promote.
        destruct (c =? nullptr); [congruence|].
        destruct (vc_alive w c); congruence. }
      rewrite Hp. lia.
Qed.

(** What the code computes, for every delta: the wrapped sum, clamped. *)
Lemma requestedBufferCount_wrapped w clients delta :
  requestedBufferCount w clients delta
  = Z.max 1 (wrap32 (liveAllowanceSum w clients + delta)).
Proof.
  unfold requestedBufferCount.
  rewrite countAllowed_fold by (cbv; split; congruence).
  rewrite Z.add_0_l, wrap32_add_l.
  destruct (Z.ltb_spec (wrap32 (liveAllowanceSum w clients + delta)) 1); lia.
Qed.

Lemma requestedBufferCount_positive w clients delta :
  1 <= requestedBufferCount w clients delta.
Proof. rewrite requestedBufferCount_wrapped. lia. Qed.

Lemma requestedBufferCount_dead w c clients delta :
  promote w c = nullptr ->
  requestedBufferCount w (c :: clients) delta
  = requestedBufferCount w clients delta.
Proof.
  intros Hdead. unfold requestedBufferCount. cbn [fold_left].
  replace (countAllowed w 0 c) with 0; [reflexivity|].
  unfold countAllowed. rewrite Hdead. reflexivity.
Qed.

Lemma changeFramesInFlight_asks (m : Machine World) delta :
  exists ok m',
    changeFramesInFlight delta m = Some (ok, m')
    /\ trace m' = trace m ++
         [HwSetMaxFramesInFlight
            (requestedBufferCount (world m) (mClients (cam m)) delta)].
Proof.
  unfold changeFramesInFlight, bind, getCam, getWorld, call, modifyCam, ret.
  simpl.
  destruct (hw_setMaxFramesInFlight (world m) _) as [[] w']; simpl;
    eexists _, _; split; reflexivity.
Qed.

(** C2, amended: whenever the sum of the allowances of the live
    membership entries plus the delta is a value of [unsigned] (between 0
    and 2^32 - 1), changeFramesInFlight asks the hardware for exactly
    that sum clamped to a minimum of 1; the demand is at least 1, it is 1
    with no client and delta 0, and a dead entry adds nothing. *)
Theorem changeFramesInFlight_demand (m : Machine World) (delta : Z) :
  0 <= liveAllowanceSum (world m) (mClients (cam m)) + delta < 2 ^ 32 ->
  let demand :=
    Z.max 1 (liveAllowanceSum (world m) (mClients (cam m)) + delta) in
  (exists ok m',
      changeFramesInFlight delta m = Some (ok, m')
      /\ trace m' = trace m ++ [HwSetMaxFramesInFlight demand])
  /\ 1 <= demand
  /\ requestedBufferCount (world m) [] 0 = 1
  /\ (forall c clients,
        promote (world m) c = nullptr ->
        requestedBufferCount (world m) (c :: clients) delta
        = requestedBufferCount (world m) clients delta).
Proof.
  intros Hrange demand.
  assert (Hd : requestedBufferCount (world m) (mClients (cam m)) delta
               = demand).
  { rewrite requestedBufferCount_wrapped, wrap32_small by exact Hrange.
    reflexivity. }
  split; [|split; [|split]].
  - destruct (changeFramesInFlight_asks m delta) as (ok & m' & Hrun & Htr).
    exists ok, m'. rewrite <- Hd. auto.
  - subst demand. lia.
  - reflexivity.
  - intros c clients Hdead. apply requestedBufferCount_dead; assumption.
Qed.

End Demand.

(** A client allowing two buffers joins an empty session: demand 2. *)
Lemma changeFramesInFlight_demand_witness :
  exists ok m',
    changeFramesInFlight 2 (start (newHalCamera true) bench0)
    = Some (ok, m')
    /\ trace m' = [HwSetMaxFramesInFlight 2].
Proof.
  destruct (changeFramesInFlight_demand
              (start (newHalCamera true) bench0) 2) as [H _].
  - vm_compute. split; congruence.
  - exact H.
Defined.


(** C2 as stated fails for a delta below minus the sum: with no client and
    delta -1 the code asks for 4294967295 buffers, not for 1. *)
Lemma changeFramesInFlight_negative_delta_wraps :
  requestedBufferCount bench0 [] (-1) = 4294967295
  /\ requestedBufferCount bench0 [] (-1)
     <> Z.max 1 (liveAllowanceSum bench0 [] + -1)
  /\ effectsOf (changeFramesInFlight (-1) (start (newHalCamera true) bench0))
     = Some [HwSetMaxFramesInFlight 4294967295].
Proof.
  split; [reflexivity|]. split; [vm_compute; congruence|]. reflexivity.
Qed.

(** ** Attaching a client *)

Section Attach.
Context {World : Type} `{!Collaborators World}.

Lemma changeFramesInFlight_refused (m : Machine World) delta :
  let demand := requestedBufferCount (world m) (mClients (cam m)) delta in
  (hw_setMaxFramesInFlight (world m) demand).1 = false ->
  exists m',
    changeFramesInFlight delta m = Some (false, m')
    /\ cam m' = cam m
    /\ trace m' = trace m ++ [HwSetMaxFramesInFlight demand].
Proof.
  intros demand Hno. unfold changeFramesInFlight. run_op.
  fold demand. rewrite Hno. eexists. repeat split.
Qed.

(** C7: when the hardware refuses the buffer count asked for while a
    client is attached, ownVirtualCamera returns false and the object is
    as before: the client is not in the membership list, no timeline was
    created and the frame record table is unchanged. *)
Theorem ownVirtualCamera_refused (m : Machine World) (virtualCamera : Z) :
  (hw_setMaxFramesInFlight (world m)
     (requestedBufferCount (world m) (mClients (cam m))
        (int32 (vc_getAllowedBuffers (world m) virtualCamera)))).1 = false ->
  exists m',
    ownVirtualCamera virtualCamera m = Some (false, m')
    /\ mClients (cam m') = mClients (cam m)
    /\ mTimelines (cam m') = mTimelines (cam m)
    /\ mFrames (cam m') = mFrames (cam m)
    /\ cam m' = cam m.
Proof.
  intros Hno. unfold ownVirtualCamera.
  destruct (virtualCamera =? nullptr).
  - exists m. repeat split.
  - destruct (changeFramesInFlight_refused m _ Hno) as (m' & Hrun & Hcam & _).
    exists m'. unfold bind at 1. unfold getWorld at 1. unfold bind at 1.
    rewrite Hrun. cbn. rewrite Hcam. repeat split.
Qed.
End Attach.

(** The driver turns the resize down while client 10 attaches. *)
Lemma ownVirtualCamera_refused_witness :
  exists m',
    ownVirtualCamera 10
      (start (newHalCamera true) (mkBench [10] 2 1 true [10] false OK 7))
    = Some (false, m')
    /\ mClients (cam m') = []
    /\ mTimelines (cam m') = ∅
    /\ mFrames (cam m') = []
    /\ cam m' = newHalCamera true.
Proof.
  apply (ownVirtualCamera_refused
           (start (newHalCamera true) (mkBench [10] 2 1 true [10] false OK 7))
           10).
  reflexivity.
Defined.

(** ** The master role *)

Section Master.
Context {World : Type} `{!Collaborators World}.

Lemma promote_live w c :
  c <> nullptr -> vc_alive w c = true -> promote w c = c.
Proof.
  intros Hc Ha. unfold promote.
  apply Z.eqb_neq in Hc. rewrite Hc, Ha. reflexivity.
Qed.

Lemma promote_dead w c : vc_alive w c = false -> promote w c = nullptr.
Proof.
  intros Ha. unfold promote. rewrite Ha.
  destruct (c =? nullptr); reflexivity.
Qed.

Lemma promote_cases w c : promote w c = c \/ promote w c = nullptr.
Proof.
  unfold promote. destruct (c =? nullptr) eqn:E.
  - apply Z.eqb_eq in E. auto.
  - destruct (vc_alive w c); auto.
Qed.

Lemma setMaster_free (m : Machine World) c :
  mMaster (cam m) = nullptr ->
  setMaster c m = Some (OK, withMaster c m).
Proof. intros Hm. unfold setMaster. run_op. rewrite Hm. reflexivity. Qed.

Lemma setMaster_taken (m : Machine World) c :
  mMaster (cam m) <> nullptr ->
  setMaster c m = Some (OWNERSHIP_LOST, m).
Proof.
  intros Hm. unfold setMaster. run_op.
  apply Z.eqb_neq in Hm. rewrite Hm. reflexivity.
Qed.

Lemma forceMaster_same (m : Machine World) c :
  promote (world m) (mMaster (cam m)) = c ->
  forceMaster c m = Some (OK, m).
Proof.
  intros Hp. unfold forceMaster. run_op.
  rewrite Hp, Z.eqb_refl. reflexivity.
Qed.

Lemma forceMaster_steals (m : Machine World) c :
  promote (world m) (mMaster (cam m)) <> c ->
  promote (world m) (mMaster (cam m)) <> nullptr ->
  let prev := mMaster (cam m) in
  let event := mkEvent MASTER_RELEASED 0 0 in
  forceMaster c m
  = Some (OK, mkMachine (set_mMaster c (cam m))
                (vc_notify (world m) prev event).2
                (trace m ++ [VcNotify prev event])).
Proof.
  intros Hne Hlive prev event. unfold forceMaster. run_op.
  assert (Hp : promote (world m) (mMaster (cam m)) = prev).
  { subst prev. destruct (promote_cases (world m) (mMaster (cam m)));
      congruence. }
  rewrite Hp in *.
  apply Z.eqb_neq in Hne, Hlive. rewrite Hne, Hlive. reflexivity.
Qed.

Lemma forceMaster_vacant (m : Machine World) c :
  promote (world m) (mMaster (cam m)) = nullptr ->
  c <> nullptr ->
  forceMaster c m = Some (OK, withMaster c m).
Proof.
  intros Hp Hc. unfold forceMaster. run_op. rewrite Hp.
  assert (E : (nullptr =? c) = false) by (apply Z.eqb_neq; congruence).
  rewrite E. reflexivity.
Qed.

(** C5: setMaster installs the caller and answers OK only when the slot
    holds no master; with a master in the slot it answers OWNERSHIP_LOST
    and changes nothing.  forceMaster always answers OK; it changes
    nothing when the caller is the master already, and when another live
    client is the master it puts the caller in the slot and sends that
    previous master exactly one MASTER_RELEASED event. *)
Theorem master_claims (m : Machine World) (caller : Z) :
  caller <> nullptr ->
  vc_alive (world m) caller = true ->
  (mMaster (cam m) = nullptr ->
     setMaster caller m = Some (OK, withMaster caller m))
  /\ (mMaster (cam m) <> nullptr ->
        setMaster caller m = Some (OWNERSHIP_LOST, m))
  /\ (forall r m', setMaster caller m = Some (r, m') ->
        mMaster (cam m') <> mMaster (cam m) ->
        mMaster (cam m) = nullptr /\ r = OK)
  /\ (exists m', forceMaster caller m = Some (OK, m'))
  /\ (mMaster (cam m) = caller -> forceMaster caller m = Some (OK, m))
  /\ (forall prev,
        mMaster (cam m) = prev -> prev <> caller -> prev <> nullptr ->
        vc_alive (world m) prev = true ->
        exists m',
          forceMaster caller m = Some (OK, m')
          /\ cam m' = set_mMaster caller (cam m)
          /\ (exists evs, trace m' = trace m ++ evs
                /\ notificationsTo prev evs = [mkEvent MASTER_RELEASED 0 0]
                /\ length evs = 1%nat)).
Proof.
  intros Hc Halive.
  split; [apply setMaster_free|].
  split; [apply setMaster_taken|].
  split.
  { intros r m' Hrun Hchg.
    destruct (Z.eq_dec (mMaster (cam m)) nullptr) as [E|E].
    - rewrite (setMaster_free _ _ E) in Hrun. split; congruence.
    - rewrite (setMaster_taken _ _ E) in Hrun. congruence. }
  split.
  { destruct (Z.eq_dec (promote (world m) (mMaster (cam m))) caller) as [E|E].
    - eexists. apply forceMaster_same; assumption.
    - destruct (Z.eq_dec (promote (world m) (mMaster (cam m))) nullptr)
        as [E0|E0].
      + eexists. apply forceMaster_vacant; assumption.
      + eexists. apply forceMaster_steals; assumption. }
  split.
  { intros Hm. apply forceMaster_same. rewrite Hm.
    apply promote_live; assumption. }
  intros prev Hm Hne H0 Hprev.
  assert (Hp : promote (world m) (mMaster (cam m)) = prev).
  { rewrite Hm. apply promote_live; assumption. }
  eexists. split.
  { apply forceMaster_steals; rewrite Hp; assumption. }
  cbn [cam trace]. split; [reflexivity|].
  eexists. split; [reflexivity|]. rewrite Hm.
  unfold notificationsTo. cbn. rewrite Z.eqb_refl. split; reflexivity.
Qed.

(** C10: a master that was destroyed without releasing the role keeps
    the slot occupied.  For every client, setMaster answers
    OWNERSHIP_LOST and unsetMaster answers INVALID_ARG, both without
    effect; forceMaster puts the caller in the slot and notifies
    nobody. *)
Theorem dead_master_keeps_slot (m : Machine World) (caller : Z) :
  mMaster (cam m) <> nullptr ->
  vc_alive (world m) (mMaster (cam m)) = false ->
  caller <> nullptr ->
  setMaster caller m = Some (OWNERSHIP_LOST, m)
  /\ unsetMaster caller m = Some (INVALID_ARG, m)
  /\ forceMaster caller m = Some (OK, withMaster caller m)
  /\ trace (withMaster caller m) = trace m.
Proof.
  intros Hm Hdead Hc.
  pose proof (promote_dead _ _ Hdead) as Hp.
  split; [apply setMaster_taken; assumption|].
  split.
  { unfold unsetMaster. run_op. rewrite Hp.
    assert (E : (nullptr =? caller) = false) by (apply Z.eqb_neq; congruence).
    rewrite E. reflexivity. }
  split; [apply forceMaster_vacant; assumption|reflexivity].
Qed.
End Master.

(** Client 10 holds the role and client 20 asks. *)
Lemma master_claims_witness :
  setMaster 20 (start (masterIs 10) bench0)
  = Some (OWNERSHIP_LOST, start (masterIs 10) bench0)
  /\ setMaster 20 (start (masterIs nullptr) bench0)
     = Some (OK, start (masterIs 20) bench0)
  /\ forceMaster 20 (start (masterIs 20) bench0)
     = Some (OK, start (masterIs 20) bench0)
  /\ exists m',
       forceMaster 20 (start (masterIs 10) bench0) = Some (OK, m')
       /\ cam m' = masterIs 20
       /\ exists evs,
            trace m' = evs
            /\ notificationsTo 10 evs = [mkEvent MASTER_RELEASED 0 0]
            /\ length evs = 1%nat.
Proof.
  assert (H20 : (20 : Z) <> nullptr) by (vm_compute; congruence).
  assert (H10 : (10 : Z) <> nullptr) by (vm_compute; congruence).
  assert (Hne : (10 : Z) <> 20) by congruence.
  assert (Ha : vc_alive bench0 20 = true) by reflexivity.
  assert (Hb : vc_alive bench0 10 = true) by reflexivity.
  destruct (master_claims (start (masterIs 10) bench0) 20 H20 Ha)
    as (_ & Htaken & _ & _ & _ & Hsteal).
  destruct (master_claims (start (masterIs nullptr) bench0) 20 H20 Ha)
    as (Hfree & _).
  destruct (master_claims (start (masterIs 20) bench0) 20 H20 Ha)
    as (_ & _ & _ & _ & Hsame & _).
  split; [apply Htaken; vm_compute; congruence|].
  split; [apply Hfree; reflexivity|].
  split; [apply Hsame; reflexivity|].
  exact (Hsteal 10 eq_refl Hne H10 Hb).
Defined.

(** Client 10 held the role and is gone; client 20 asks. *)
Lemma dead_master_keeps_slot_witness :
  let w := mkBench [20] 2 1 true [20] true OK 7 in
  setMaster 20 (start (masterIs 10) w)
  = Some (OWNERSHIP_LOST, start (masterIs 10) w)
  /\ unsetMaster 20 (start (masterIs 10) w)
     = Some (INVALID_ARG, start (masterIs 10) w)
  /\ forceMaster 20 (start (masterIs 10) w)
     = Some (OK, start (masterIs 20) w)
  /\ trace (withMaster 20 (start (masterIs 10) w)) = [].
Proof.
  intros w.
  apply (dead_master_keeps_slot (start (masterIs 10) w) 20).
  - vm_compute. congruence.
  - reflexivity.
  - vm_compute. congruence.
Defined.

(** ** Parameters *)

Section Parameters.
Context {World : Type} `{!Collaborators World}.

Lemma promote_stable (w w' : World) :
  (forall c, vc_alive w' c = vc_alive w c) ->
  forall c, promote w' c = promote w c.
Proof. intros He c. unfold promote. rewrite He. reflexivity. Qed.

Lemma liveClients_stable (w w' : World) clients :
  (forall c, vc_alive w' c = vc_alive w c) ->
  liveClients w' clients = liveClients w clients.
Proof.
  intros He. unfold liveClients. apply filter_ext. intros c.
  rewrite (promote_stable w w' He). reflexivity.
Qed.

Lemma promote_of_live w c :
  (promote w c =? nullptr) = false -> promote w c = c.
Proof.
  intros Hl. apply Z.eqb_neq in Hl.
  destruct (promote_cases w c); congruence.
Qed.

Lemma forwardEvent_broadcast (event : EvsEventDesc) :
  notifyKeepsClients World ->
  forall clients (m : Machine World),
  exists m',
    forwardEvent event clients m = Some (tt, m')
    /\ cam m' = cam m
    /\ trace m' = trace m ++ broadcast event (liveClients (world m) clients)
    /\ (forall c, vc_alive (world m') c = vc_alive (world m) c).
Proof.
  intros Hkeep. induction clients as [|c clients IH]; intros m.
  - exists m. cbn. rewrite app_nil_r. auto.
  - cbn [forwardEvent]. run_op. unfold liveClients. cbn [List.filter].
    destruct (promote (world m) c =? nullptr) eqn:Hp; cbn [negb].
    + apply IH.
    + rewrite (promote_of_live _ _ Hp).
      set (m1 := mkMachine (cam m) (vc_notify (world m) c event).2
                   (trace m ++ [VcNotify c event])).
      destruct (IH m1) as (m' & Hrun & Hcam & Htr & Hal).
      exists m'. split; [exact Hrun|]. split; [exact Hcam|].
      assert (He : forall c', vc_alive (world m1) c' = vc_alive (world m) c').
      { intros c'. apply Hkeep. }
      split.
      * rewrite Htr. subst m1. cbn [trace].
        rewrite (liveClients_stable (world m) _ clients He).
        rewrite <- app_assoc. reflexivity.
      * intros c'. rewrite Hal. apply He.
Qed.

(** C8: a client that is not the master causes no hardware write: the
    parameter is read instead, the value read (when the read succeeds)
    is what the caller gets back, and the result is INVALID_ARG.  For
    the master the write goes to the hardware, and when its status is OK
    every live client of the membership list is sent one
    PARAMETER_CHANGED event. *)
Theorem setParameter_gate (m : Machine World) (caller id value : Z) :
  caller <> nullptr ->
  vc_alive (world m) caller = true ->
  notifyKeepsClients World ->
  (mMaster (cam m) <> caller ->
     let r := hw_getIntParameter (world m) id in
     setParameter caller id value m
     = Some ((INVALID_ARG, if EvsResult_eqb r.1.1 OK then r.1.2 else value),
             mkMachine (cam m) r.2 (trace m ++ [HwGetIntParameter id])))
  /\ (mMaster (cam m) = caller ->
        let r := hw_setIntParameter (world m) id value in
        let event := mkEvent PARAMETER_CHANGED (wrap32 id) (wrap32 r.1.2) in
        exists m',
          setParameter caller id value m = Some (r.1, m')
          /\ cam m' = cam m
          /\ trace m' = trace m ++ HwSetIntParameter id value ::
               (if EvsResult_eqb r.1.1 OK
                then broadcast event (liveClients r.2 (mClients (cam m)))
                else [])).
Proof.
  intros Hc Halive Hkeep. split.
  - intros Hm r. unfold setParameter, getParameter. run_op.
    assert (E : (caller =? promote (world m) (mMaster (cam m))) = false).
    { apply Z.eqb_neq.
      destruct (promote_cases (world m) (mMaster (cam m))); congruence. }
    rewrite E. reflexivity.
  - intros Hm r event. unfold setParameter, notify. run_op.
    rewrite Hm, (promote_live _ _ Hc Halive), Z.eqb_refl.
    fold r. destruct r as [[status readValue] w1] eqn:Hr. cbn [fst snd].
    destruct (EvsResult_eqb status OK) eqn:Hs.
    + cbn [aType isStreamStopped].
      destruct (forwardEvent_broadcast
                  (mkEvent PARAMETER_CHANGED (wrap32 id) (wrap32 readValue))
                  Hkeep (mClients (cam m))
                  (mkMachine (cam m) w1
                     (trace m ++ [HwSetIntParameter id value])))
        as (m' & Hrun & Hcam & Htr & _).
      cbn [cam world trace] in *. rewrite Hrun.
      exists m'. split; [reflexivity|]. split; [exact Hcam|].
      rewrite Htr, <- app_assoc. reflexivity.
    + eexists. split; [reflexivity|]. split; reflexivity.
Qed.
End Parameters.

(** Client 10 is the master; client 20 and then client 10 set a parameter. *)
Lemma setParameter_gate_witness :
  setParameter 20 3 5 (start (masterIs 10) bench0)
  = Some ((INVALID_ARG, 7),
          mkMachine (masterIs 10) bench0 [HwGetIntParameter 3])
  /\ exists m',
       setParameter 10 3 5 (start (masterIs 10) bench0) = Some ((OK, 7), m')
       /\ cam m' = masterIs 10
       /\ trace m'
          = [HwSetIntParameter 3 5;
             VcNotify 10 (mkEvent PARAMETER_CHANGED 3 7);
             VcNotify 20 (mkEvent PARAMETER_CHANGED 3 7)].
Proof.
  assert (H20 : (20 : Z) <> nullptr) by (vm_compute; congruence).
  assert (H10 : (10 : Z) <> nullptr) by (vm_compute; congruence).
  assert (Hk : notifyKeepsClients Bench) by (intros w c e c'; reflexivity).
  assert (Ha : forall c, memZ c [10; 20] = true -> vc_alive bench0 c = true)
    by (intros c Hin; exact Hin).
  split.
  - apply (setParameter_gate (start (masterIs 10) bench0) 20 3 5 H20
             (Ha 20 eq_refl) Hk).
    vm_compute. congruence.
  - apply (setParameter_gate (start (masterIs 10) bench0) 10 3 5 H10
             (Ha 10 eq_refl) Hk).
    reflexivity.
Defined.

(** ** Completion calls *)

Section Completion.
Context {World : Type} `{!Collaborators World}.
Variable refKind : IntKind.

Lemma normInt_small k z : 0 <= z < 2 ^ 31 -> normInt k z = z.
Proof.
  intros Hz. destruct k; unfold normInt, int32, wrap32.
  - rewrite Z.mod_small; lia.
  - apply Z.mod_small. lia.
Qed.

Lemma findFrame_bound id frames : (findFrame id frames <= length frames)%nat.
Proof.
  induction frames as [|r frames IH]; simpl; [lia|].
  destruct (frameId r =? id); simpl; lia.
Qed.

Lemma findFrame_found id frames rec :
  frames !! findFrame id frames = Some rec -> frameId rec = id.
Proof.
  induction frames as [|r frames IH]; simpl; [discriminate|].
  destruct (frameId r =? id) eqn:E; simpl.
  - intros [= <-]. apply Z.eqb_eq. exact E.
  - exact IH.
Qed.

(** No record carries the identifier: nothing happens. *)
Lemma doneWithFrame_1_1_unknown (m : Machine World) buffer :
  findFrame (bufferId buffer) (mFrames (cam m)) = length (mFrames (cam m)) ->
  doneWithFrame_1_1 refKind buffer m = Some (tt, m).
Proof.
  intros Hi. unfold doneWithFrame_1_1. run_op. rewrite Hi.
  rewrite (lookup_ge_None_2 (mFrames (cam m)) _ (Nat.le_refl _)).
  reflexivity.
Qed.

(** A record in use is found: its count goes down by one and stays
    non-negative; the buffer goes back to the hardware exactly when the
    count was 1. *)
Lemma doneWithFrame_1_1_in_use (m : Machine World) buffer rec :
  mFrames (cam m) !! findFrame (bufferId buffer) (mFrames (cam m))
  = Some rec ->
  1 <= refCount rec < 2 ^ 31 ->
  let i := findFrame (bufferId buffer) (mFrames (cam m)) in
  let rec' := mkFrameRecord (bufferId buffer) (refCount rec - 1) in
  doneWithFrame_1_1 refKind buffer m
  = Some (tt, mkMachine (set_mFrames (<[i := rec']> (mFrames (cam m))) (cam m))
                (world m)
                (trace m ++ if refCount rec =? 1
                            then [HwDoneWithFrame_1_1 [buffer]] else [])).
Proof.
  intros Hrec Hcount i rec'. unfold doneWithFrame_1_1. run_op.
  fold i in Hrec |- *. rewrite Hrec. unfold releaseRecord. cbn [refCount].
  rewrite normInt_small by lia.
  rewrite (findFrame_found _ _ _ Hrec). fold rec'.
  destruct (Z.eqb_spec (refCount rec) 1) as [E|E].
  - rewrite E. reflexivity.
  - destruct (Z.leb_spec (refCount rec - 1) 0); [lia|].
    rewrite app_nil_r. reflexivity.
Qed.
End Completion.

(** C1 fails on the code: after frame 7 was delivered to one client and
    completed once, its record stays in the table with count 0; the second
    completion call finds it and decrements again.  With a signed count
    the record shows -1 and the buffer goes back to the hardware a second
    time; with an unsigned count the record wraps to 4294967295. *)
Theorem doneWithFrame_twice_underflows :
  (camOf (doneTwice SignedInt) ≫= (fun h => Some (mFrames h))
   = Some [mkFrameRecord 7 (-1)]
   /\ effectsOf (doneTwice SignedInt)
      = Some [VcDeliverFrame 10 frame7 true;
              HwDoneWithFrame_1_1 [frame7];
              HwDoneWithFrame_1_1 [frame7]])
  /\ (camOf (doneTwice UnsignedInt) ≫= (fun h => Some (mFrames h))
      = Some [mkFrameRecord 7 4294967295]
      /\ effectsOf (doneTwice UnsignedInt)
         = Some [VcDeliverFrame 10 frame7 true;
                 HwDoneWithFrame_1_1 [frame7]]).
Proof. repeat split; vm_compute; reflexivity. Qed.

(** ** The fence-aware track *)

Section FenceTrack.
Context {World : Type} `{!Collaborators World}.

Lemma wrap32_succ n : 0 <= n < 2 ^ 32 - 1 -> wrap32 (n + 1) = n + 1.
Proof. intros Hn. apply wrap32_small. lia. Qed.

Lemma int64_small z : - 2 ^ 63 <= z < 2 ^ 63 -> int64 z = z.
Proof. intros Hz. unfold int64. rewrite Z.mod_small; lia. Qed.



Lemma serveRequest_offered (m : Machine World) b req n :
  promote (world m) (client req) <> nullptr ->
  kThreshold <= int64 (timestamp b - req_timestamp req) ->
  let vCam := client req in
  let answer := vc_deliverFrame (world m) vCam b in
  let m1 := mkMachine (cam m) answer.2
              (trace m ++ [VcDeliverFrame vCam b answer.1]) in
  serveRequest b req n m
  = if answer.1 then
      match mTimelines (cam m) !! vCam with
      | Some t =>
          Some (wrap32 (n + 1),
                mkMachine
                  (set_mTimelines
                     (<[vCam := BumpTimelineEventCounter t]>
                        (mTimelines (cam m))) (cam m))
                  answer.2 (trace m1))
      | None => None
      end
    else Some (n, m1).
Proof.
  intros Hp Hlate vCam answer m1. unfold serveRequest. run_op.
  assert (Hv : promote (world m) (client req) = vCam).
  { subst vCam. destruct (promote_cases (world m) (client req)); congruence. }
  rewrite Hv in *. apply Z.eqb_neq in Hp. rewrite Hp.
  apply Z.ltb_ge in Hlate. rewrite Hlate.
  subst m1 answer.
  destruct (vc_deliverFrame (world m) vCam b) as [[] w1];
    cbn [cam world trace fst snd]; [|reflexivity].
  destruct (mTimelines (cam m) !! vCam); reflexivity.
Qed.

(** On a session with fence support the requests drained are those of
    the next queue at the arrival of the frame, and what is queued again
    lands behind the former current queue. *)
Lemma fanOut_drains (m : Machine World) b :
  mSyncSupported (cam m) = true ->
  fanOut b m
  = bind (drainRequests b (mNextRequests (cam m)) 0)
      (fun frameDeliveriesV1 =>
         let* _ := modifyCam (fun h =>
                     set_mFramesReceived (mFramesReceived h + 1) h) in
         let* frameDeliveries := forwardFrame b true (mClients (cam m)) 0 in
         ret (wrap32 (frameDeliveries + frameDeliveriesV1)))
      (swapped m).
Proof.
  intros Hsync. unfold fanOut. unfold bind at 1. unfold getCam at 1.
  rewrite Hsync. reflexivity.
Qed.
End FenceTrack.

(** ** The two tracks together *)

Section FanOut.
Context {World : Type} `{!Collaborators World}.


Lemma acceptances_bound evs : 0 <= acceptances evs <= Z.of_nat (length evs).
Proof.
  induction evs as [|e evs IH]; [cbn; lia|].
  destruct e as [| | | | | | |vc b' [] | |]; cbn [length acceptances]; lia.
Qed.

Lemma offeredTo_app evs1 evs2 :
  offeredTo (evs1 ++ evs2) = offeredTo evs1 ++ offeredTo evs2.
Proof. unfold offeredTo. apply omap_app. Qed.






(** The direct track always has a result and leaves the object alone. *)
Lemma forwardFrame_runs b sync : forall clients n (m : Machine World),
  0 <= n < 2 ^ 32 ->
  exists n' m' evs,
    forwardFrame b sync clients n m = Some (n', m')
    /\ cam m' = cam m
    /\ trace m' = trace m ++ evs
    /\ Forall isDelivery evs
    /\ (length evs <= length clients)%nat
    /\ n' = wrap32 (n + acceptances evs).
Proof.
  induction clients as [|c rest IH]; intros n m Hn.
  - exists n, m, []. cbn [forwardFrame]. unfold ret.
    rewrite app_nil_r, Z.add_0_r, wrap32_small by exact Hn.
    repeat split; auto.
  - cbn [forwardFrame]. run_op.
    destruct ((promote (world m) c =? nullptr)
              || sync && (0 <? vc_getVersion (world m) (promote (world m) c))).
    + destruct (IH n m Hn) as (n2 & m2 & evs2 & H1 & H2 & H3 & H4 & H5 & H6).
      exists n2, m2, evs2. repeat split; auto. cbn [length]. lia.
    + set (vCam := promote (world m) c).
      destruct (vc_deliverFrame (world m) vCam b) as [accepted w1];
        cbn [fst snd].
      set (m1 := mkMachine (cam m) w1
                   (trace m ++ [VcDeliverFrame vCam b accepted])).
      set (n1 := if accepted then wrap32 (n + 1) else n).
      assert (Hn1 : 0 <= n1 < 2 ^ 32).
      { subst n1. destruct accepted; [apply wrap32_range|exact Hn]. }
      destruct (IH n1 m1 Hn1)
        as (n2 & m2 & evs2 & H1 & H2 & H3 & H4 & H5 & H6).
      exists n2, m2, (VcDeliverFrame vCam b accepted :: evs2).
      split; [exact H1|]. split; [exact H2|].
      split; [rewrite H3; subst m1; cbn [trace];
              rewrite <- app_assoc; reflexivity|].
      split; [constructor; [exact I|exact H4]|].
      split; [cbn [length]; lia|].
      rewrite H6. subst n1. destruct accepted; cbn [acceptances].
      * rewrite wrap32_add_l. f_equal. lia.
      * reflexivity.
Qed.
End FanOut.

Section Tracking.
Context {World : Type} `{!Collaborators World}.
Variable refKind : IntKind.


Lemma findFree_bound frames : (findFree frames <= length frames)%nat.
Proof.
  induction frames as [|r frames IH]; simpl; [lia|].
  destruct (refCount r =? 0); simpl; lia.
Qed.

(** The slot [findFree] points at is free, or there is no free slot. *)
Lemma findFree_spec frames :
  (exists r, frames !! findFree frames = Some r /\ refCount r = 0)
  \/ (Forall (fun r => refCount r <> 0) frames
      /\ findFree frames = length frames).
Proof.
  induction frames as [|r frames IH]; simpl.
  - right. split; [constructor|reflexivity].
  - destruct (Z.eqb_spec (refCount r) 0) as [E|E].
    + left. exists r. split; [reflexivity|exact E].
    + destruct IH as [(r' & Hr' & H0)|(Hall & Hlen)].
      * left. exists r'. split; assumption.
      * right. split; [constructor; assumption|congruence].
Qed.

Lemma trackFrame_spec id n frames :
  let i := findFree frames in
  let frames' := trackFrame refKind id n frames in
  frames' !! i = Some (mkFrameRecord id (normInt refKind n))
  /\ (forall j, j <> i -> frames' !! j = frames !! j)
  /\ ((exists r, frames !! i = Some r /\ refCount r = 0
                 /\ length frames' = length frames)
      \/ (Forall (fun r => refCount r <> 0) frames
          /\ i = length frames
          /\ length frames' = S (length frames))).
Proof.
  intros i frames'. subst frames'. unfold trackFrame. fold i.
  destruct (Nat.eqb_spec i (length frames)) as [E|E].
  - split.
    { rewrite lookup_app_r by lia. rewrite E, Nat.sub_diag. reflexivity. }
    split.
    { intros j Hj. destruct (Nat.lt_ge_cases j (length frames)).
      - rewrite lookup_app_l by assumption. reflexivity.
      - rewrite !lookup_ge_None_2; [reflexivity|lia|].
        rewrite length_app. cbn [length]. lia. }
    right. destruct (findFree_spec frames) as [(r & Hr & _)|(Hall & _)].
    + apply lookup_lt_Some in Hr. fold i in Hr. lia.
    + split; [exact Hall|]. split; [exact E|].
      rewrite length_app. cbn [length]. lia.
  - assert (Hi : (i < length frames)%nat).
    { pose proof (findFree_bound frames). fold i in H. lia. }
    split; [apply list_lookup_insert_eq; exact Hi|].
    split; [intros j Hj; apply list_lookup_insert_ne; congruence|].
    left. destruct (findFree_spec frames) as [(r & Hr & Hz)|(_ & Hlen)].
    + exists r. fold i in Hr. rewrite length_insert. auto.
    + fold i in Hlen. lia.
Qed.

End Tracking.

(** ** The fence-aware track, request by request *)

Section Served.
Context {World : Type} `{!Collaborators World}.
Variable refKind : IntKind.




Lemma requesters_app reqs1 reqs2 :
  requesters (reqs1 ++ reqs2) = requesters reqs1 ++ requesters reqs2.
Proof. unfold requesters. apply List.map_app. Qed.








End Served.





Example deliverFrame_1_1_unused :
  effectsOf (deliverFrame_1_1 UnsignedInt [frame7] (start (fenced []) bench2))
  = Some [HwDoneWithFrame_1_1 [frame7]]
  /\ camOf (deliverFrame_1_1 UnsignedInt [frame7] (start (fenced []) bench2))
     = Some (set_mFramesNotUsed 1 (set_mFramesReceived 1 (fenced []))).
Proof. split; reflexivity. Qed.

Example deliverFrame_1_1_accepted :
  let run := deliverFrame_1_1 UnsignedInt [frame7]
               (start (fenced [mkFrameRequest 10 0; mkFrameRequest 20 0])
                  bench2) in
  effectsOf run
  = Some [VcDeliverFrame 10 frame7 true; VcDeliverFrame 20 frame7 false]
  /\ camOf run ≫= (fun h => Some (mFrames h)) = Some [mkFrameRecord 7 1].
Proof. split; reflexivity. Qed.

(** ** The request queues *)

Section Queues.
Context {World : Type} `{!Collaborators World}.
Variable refKind : IntKind.

Lemma memZ_spec x l : memZ x l = true <-> x ∈ l.
Proof.
  unfold memZ. rewrite existsb_exists. split.
  - intros (y & Hin & Heq). apply Z.eqb_eq in Heq. subst y.
    apply list_elem_of_In. exact Hin.
  - intros Hin. exists x. split; [apply list_elem_of_In; exact Hin|].
    apply Z.eqb_refl.
Qed.

Lemma eraseRequest_None c reqs :
  eraseRequest c reqs = None <-> c ∉ requesters reqs.
Proof.
  unfold requesters. induction reqs as [|r reqs IH]; cbn [eraseRequest map].
  - split; [intros _; apply not_elem_of_nil|reflexivity].
  - rewrite not_elem_of_cons.
    destruct (Z.eqb_spec (client r) c) as [E|E].
    + split; [discriminate|]. intros [Hne _]. congruence.
    + destruct (eraseRequest c reqs).
      * split; [discriminate|]. intros [_ Hno]. apply IH in Hno. discriminate.
      * split; [|reflexivity]. intros _. split; [congruence|]. apply IH.
        reflexivity.
Qed.

Lemma eraseRequest_sublist c : forall reqs reqs',
  eraseRequest c reqs = Some reqs' -> reqs' `sublist_of` reqs.
Proof.
  induction reqs as [|r reqs IH]; cbn [eraseRequest]; intros reqs' H.
  - discriminate.
  - destruct (client r =? c).
    + injection H as <-. apply sublist_cons. reflexivity.
    + destruct (eraseRequest c reqs) as [rest'|]; [|discriminate].
      injection H as <-. apply sublist_skip. apply IH. reflexivity.
Qed.

(** With one request per client, erasing the first request of [c]
    leaves none of [c] and keeps the requests of the others. *)
Lemma eraseRequest_single c : forall reqs reqs',
  eraseRequest c reqs = Some reqs' ->
  NoDup (requesters reqs) ->
  (c ∉ requesters reqs')
  /\ (forall r, r ∈ reqs -> client r <> c -> r ∈ reqs').
Proof.
  unfold requesters.
  induction reqs as [|r reqs IH]; cbn [eraseRequest map]; intros reqs' H Hnd.
  - discriminate.
  - apply NoDup_cons in Hnd as [Hfresh Hnd].
    destruct (Z.eqb_spec (client r) c) as [E|E].
    + injection H as <-. split; [congruence|].
      intros r' Hin Hne. apply elem_of_cons in Hin as [->|Hin];
        [congruence|exact Hin].
    + destruct (eraseRequest c reqs) as [rest'|] eqn:Hrest; [|discriminate].
      injection H as <-. destruct (IH rest' eq_refl Hnd) as [Hno Hkeep].
      split.
      * cbn [map]. rewrite not_elem_of_cons. split; [congruence|exact Hno].
      * intros r' Hin Hne. apply elem_of_cons in Hin as [->|Hin].
        -- apply elem_of_cons. left. reflexivity.
        -- apply elem_of_cons. right. apply Hkeep; assumption.
Qed.

(** The only request of [c] is erased in place. *)
Lemma eraseRequest_first c : forall pre r post,
  c ∉ requesters pre ->
  client r = c ->
  eraseRequest c (pre ++ r :: post) = Some (pre ++ post).
Proof.
  unfold requesters.
  induction pre as [|x pre IH]; intros r post Hpre Hr; cbn [app eraseRequest].
  - apply Z.eqb_eq in Hr. rewrite Hr. reflexivity.
  - cbn [map] in Hpre. apply not_elem_of_cons in Hpre as [Hx Hpre].
    assert (E : (client x =? c) = false) by (apply Z.eqb_neq; congruence).
    rewrite E, (IH r post Hpre Hr). reflexivity.
Qed.

Lemma requesters_sublist (l1 l2 : list FrameRequest) :
  l1 `sublist_of` l2 -> requesters l1 `sublist_of` requesters l2.
Proof.
  unfold requesters. induction 1; cbn [map]; constructor; assumption.
Qed.

(** What clientStreamEnding does, in full. *)
Lemma clientStreamEnding_runs (m : Machine World) (c : Z) :
  exists m' evs,
    clientStreamEnding c m = Some (tt, m')
    /\ mCurrentRequests (cam m') = mCurrentRequests (cam m)
    /\ mFrames (cam m') = mFrames (cam m)
    /\ (evs = [] \/ evs = [HwStopVideoStream])
    /\ match eraseRequest c (mNextRequests (cam m)) with
       | Some reqs =>
           mNextRequests (cam m') = reqs
           /\ match mTimelines (cam m) !! c with
              | Some t =>
                  mTimelines (cam m') = delete c (mTimelines (cam m))
                  /\ trace m'
                     = trace m
                       ++ TimelineDestroyed c (BumpTimelineEventCounter t)
                          :: evs
              | None =>
                  mTimelines (cam m') = mTimelines (cam m)
                  /\ trace m' = trace m ++ evs
              end
       | None =>
           mNextRequests (cam m') = mNextRequests (cam m)
           /\ mTimelines (cam m') = mTimelines (cam m)
           /\ trace m' = trace m ++ evs
       end.
Proof.
  unfold clientStreamEnding. run_op.
  destruct (eraseRequest c (mNextRequests (cam m))) as [reqs|];
    [destruct (mTimelines (cam m) !! c) as [t|]|];
    cbn [cam world trace set_mClients set_mNextRequests set_mTimelines
         mClients];
    match goal with
    | |- context [fold_left ?f ?l ?a] => destruct (fold_left f l a)
    end;
    cbn [cam world trace];
    [ exists_evs (@nil Effect) | exists_evs [HwStopVideoStream]
    | exists_evs (@nil Effect) | exists_evs [HwStopVideoStream]
    | exists_evs (@nil Effect) | exists_evs [HwStopVideoStream] ].
Qed.
End Queues.

Section Ending.
Context {World : Type} `{!Collaborators World}.

(** C6, amended: for a client that has exactly one request in the next
    queue, whatever the other clients have queued, and whose timeline
    has at most one fence not yet signaled, clientStreamEnding removes
    that request and no other without offering a frame, so that no
    request of the client is left, advances the client's timeline by one
    event, which leaves it fully signaled, and discards it: every fence
    handed to the client is resolved when the call returns. *)
Theorem clientStreamEnding_signals (m : Machine World) (c : Z)
    (t : UniqueTimeline) (pre post : list FrameRequest) (r : FrameRequest) :
  mNextRequests (cam m) = pre ++ r :: post ->
  client r = c ->
  c ∉ requesters pre ->
  c ∉ requesters post ->
  mTimelines (cam m) !! c = Some t ->
  fence_counter t <= timeline_counter t + 1 ->
  exists m' evs,
    clientStreamEnding c m = Some (tt, m')
    /\ mNextRequests (cam m') = pre ++ post
    /\ (c ∉ requesters (mNextRequests (cam m')))
    /\ mTimelines (cam m') = delete c (mTimelines (cam m))
    /\ trace m'
       = trace m ++ TimelineDestroyed c (BumpTimelineEventCounter t) :: evs
    /\ Forall (fun e => ~ isDelivery e) evs
    /\ fullySignaled (BumpTimelineEventCounter t) = true
    /\ (forall f, fence_value f <= fence_counter t ->
          fenceResolved (BumpTimelineEventCounter t) f = true).
Proof.
  intros Hq Hr Hpre Hpost Ht Hone.
  destruct (clientStreamEnding_runs m c)
    as (m' & evs & Hrun & _ & _ & Hevs & Hrest).
  rewrite Hq, (eraseRequest_first c pre r post Hpre Hr), Ht in Hrest.
  destruct Hrest as (Hnext & Htl & Htr).
  exists m', evs.
  split; [exact Hrun|]. split; [exact Hnext|].
  split.
  { rewrite Hnext, requesters_app. apply not_elem_of_app. auto. }
  split; [exact Htl|]. split; [exact Htr|].
  split.
  { destruct Hevs as [->| ->]; repeat constructor. intros []. }
  unfold fullySignaled, fenceResolved, BumpTimelineEventCounter.
  cbn [timeline_counter fence_counter].
  split; [apply Z.leb_le; lia|].
  intros f Hf. apply Z.leb_le. lia.
Qed.
End Ending.

(** Client 10 waits for a frame between two requests of client 20 and
    ends its stream. *)
Lemma clientStreamEnding_signals_witness :
  exists m' evs,
    clientStreamEnding 10
      (start (fenced [mkFrameRequest 20 0; mkFrameRequest 10 0;
                      mkFrameRequest 20 5]) bench0)
    = Some (tt, m')
    /\ mNextRequests (cam m') = [mkFrameRequest 20 0; mkFrameRequest 20 5]
    /\ trace m' = TimelineDestroyed 10 (mkTimeline 1 1) :: evs
    /\ fullySignaled (mkTimeline 1 1) = true.
Proof.
  destruct (clientStreamEnding_signals
              (start (fenced [mkFrameRequest 20 0; mkFrameRequest 10 0;
                              mkFrameRequest 20 5]) bench0)
              10 (mkTimeline 0 1)
              [mkFrameRequest 20 0] [mkFrameRequest 20 5] (mkFrameRequest 10 0))
    as (m' & evs & Hrun & Hnext & _ & _ & Htr & _ & Hsig & _).
  - reflexivity.
  - reflexivity.
  - intros Hin. apply list_elem_of_singleton in Hin. discriminate Hin.
  - intros Hin. apply list_elem_of_singleton in Hin. discriminate Hin.
  - reflexivity.
  - vm_compute. congruence.
  - exists m', evs. split; [exact Hrun|].
    split; [exact Hnext|]. split; [exact Htr|exact Hsig].
Defined.

(** C6 as stated fails.  A client that asked twice and ends its stream
    keeps a request in the queue, and its timeline is discarded one event
    short of its fence counter.  A client whose request was dropped because
    it declined the frame keeps its timeline, untouched, with its fence
    unresolved. *)
Lemma clientStreamEnding_leaves_request_and_fence :
  (option_map (fun m => mNextRequests (cam m)) askTwiceAndEnd
   = Some [mkFrameRequest 10 0]
   /\ option_map (fun m => trace m) askTwiceAndEnd
      = Some [HwSetMaxFramesInFlight 2;
              TimelineDestroyed 10 (mkTimeline 1 2);
              HwStopVideoStream]
   /\ fullySignaled (mkTimeline 1 2) = false
   /\ fenceResolved (mkTimeline 1 2) (mkFence 10 2) = false)
  /\ (option_map (fun m => mNextRequests (cam m)) declineAndEnd = Some []
      /\ option_map (fun m => mTimelines (cam m) !! 20) declineAndEnd
         = Some (Some (mkTimeline 0 1))
      /\ option_map (fun m => trace m) declineAndEnd
         = Some [HwSetMaxFramesInFlight 2;
                 VcDeliverFrame 20 frame7 false;
                 HwDoneWithFrame_1_1 [frame7];
                 HwStopVideoStream]
      /\ fenceResolved (mkTimeline 0 1) (mkFence 20 1) = false).
Proof. repeat split; vm_compute; reflexivity. Qed.

Section OneRequest.
Context {World : Type} `{!Collaborators World}.
Variable refKind : IntKind.

Lemma changeFramesInFlight_queues (m m' : Machine World) delta r :
  changeFramesInFlight delta m = Some (r, m') ->
  mNextRequests (cam m') = mNextRequests (cam m)
  /\ mCurrentRequests (cam m') = mCurrentRequests (cam m).
Proof.
  unfold changeFramesInFlight. run_op. split_cases.
  all: intros [= <- <-]; split; reflexivity.
Qed.

Lemma ownVirtualCamera_queues (m m' : Machine World) vc r :
  ownVirtualCamera vc m = Some (r, m') ->
  mNextRequests (cam m') = mNextRequests (cam m)
  /\ mCurrentRequests (cam m') = mCurrentRequests (cam m).
Proof.
  unfold ownVirtualCamera. destruct (vc =? nullptr).
  { intros [= <- <-]. split; reflexivity. }
  unfold bind at 1. unfold getWorld at 1. unfold bind at 1.
  destruct (changeFramesInFlight _ m) as [[ok m1]|] eqn:Hch; [|discriminate].
  apply changeFramesInFlight_queues in Hch as [Hn Hc].
  destruct ok; cbn [negb].
  - run_op. destruct (mSyncSupported (cam m1)); cbn [cam world trace].
    + destruct (mTimelines (cam m1) !! vc); cbn [cam world trace];
        intros [= <- <-]; cbn; rewrite Hn, Hc; split; reflexivity.
    + intros [= <- <-]; cbn; rewrite Hn, Hc; split; reflexivity.
  - intros [= <- <-]. split; assumption.
Qed.

Lemma disownVirtualCamera_queues (m m' : Machine World) vc :
  disownVirtualCamera vc m = Some (tt, m') ->
  mNextRequests (cam m') = mNextRequests (cam m)
  /\ mCurrentRequests (cam m') = mCurrentRequests (cam m).
Proof.
  unfold disownVirtualCamera. destruct (vc =? nullptr).
  { intros [= <-]. split; reflexivity. }
  unfold bind at 1. unfold modifyCam at 1. unfold bind at 1.
  match goal with
  | |- context [changeFramesInFlight 0 ?m1] =>
      destruct (changeFramesInFlight 0 m1) as [[ok m2]|] eqn:Hch;
      [|discriminate]
  end.
  apply changeFramesInFlight_queues in Hch as [Hn Hc].
  intros [= <-]. rewrite Hn, Hc. split; reflexivity.
Qed.

Lemma doneWithFrame_1_1_queues (m m' : Machine World) buffer :
  doneWithFrame_1_1 refKind buffer m = Some (tt, m') ->
  mNextRequests (cam m') = mNextRequests (cam m)
  /\ mCurrentRequests (cam m') = mCurrentRequests (cam m).
Proof.
  unfold doneWithFrame_1_1. run_op. split_cases.
  all: intros [= <-]; split; reflexivity.
Qed.

Lemma requestNewFrame_queues (m m' : Machine World) c ts r :
  requestNewFrame c ts m = Some (r, m') ->
  mCurrentRequests (cam m') = mCurrentRequests (cam m)
  /\ (mNextRequests (cam m') = mNextRequests (cam m)
      \/ mNextRequests (cam m')
         = mNextRequests (cam m) ++ [mkFrameRequest c ts]).
Proof.
  unfold requestNewFrame. run_op. split_cases.
  all: intros [= <- <-]; split; cbn; auto.
Qed.

Lemma serveRequest_queues (m m' : Machine World) b req n n' :
  serveRequest b req n m = Some (n', m') ->
  mCurrentRequests (cam m') = mCurrentRequests (cam m)
  /\ (mNextRequests (cam m') = mNextRequests (cam m)
      \/ mNextRequests (cam m') = mNextRequests (cam m) ++ [req]).
Proof.
  unfold serveRequest. run_op. split_cases.
  all: intros [= <- <-]; split; cbn; auto.
Qed.

(** What is queued again is taken, in order, from what was drained. *)
Lemma drainRequests_queues b : forall reqs n (m : Machine World) n' m',
  drainRequests b reqs n m = Some (n', m') ->
  exists kept,
    kept `sublist_of` reqs
    /\ mNextRequests (cam m') = mNextRequests (cam m) ++ kept
    /\ mCurrentRequests (cam m')
       = match reqs with [] => mCurrentRequests (cam m) | _ => [] end.
Proof.
  induction reqs as [|req rest IH]; intros n m n' m'.
  - intros [= <- <-]. exists []. rewrite app_nil_r. repeat split. constructor.
  - cbn [drainRequests]. unfold bind at 1. unfold modifyCam at 1.
    unfold bind at 1.
    match goal with
    | |- context [serveRequest b req n ?m0] =>
        destruct (serveRequest b req n m0) as [[n1 m1]|] eqn:Hserve;
        [|discriminate]
    end.
    apply serveRequest_queues in Hserve as [Hc1 Hn1]. cbn in Hc1, Hn1.
    intros Hrest. apply IH in Hrest as (kept & Hsub & Hnext & Hcur).
    assert (Hempty : mCurrentRequests (cam m') = []).
    { rewrite Hcur. destruct rest; [exact Hc1|reflexivity]. }
    destruct Hn1 as [Hn1|Hn1]; rewrite Hn1 in Hnext.
    + exists kept. split; [apply sublist_cons; exact Hsub|]. auto.
    + exists (req :: kept). split; [apply sublist_skip; exact Hsub|].
      rewrite Hnext, <- app_assoc. auto.
Qed.

Lemma forwardFrame_cam b sync clients (m m' : Machine World) n' :
  forwardFrame b sync clients 0 m = Some (n', m') -> cam m' = cam m.
Proof.
  intros Hrun.
  destruct (forwardFrame_runs b sync clients 0 m)
    as (n2 & m2 & evs & Hrun2 & Hcam & _); [cbv; split; congruence|].
  congruence.
Qed.

Lemma fanOut_queues (m m' : Machine World) b total :
  fanOut b m = Some (total, m') ->
  oneRequestEach (cam m) ->
  oneRequestEach (cam m').
Proof.
  unfold oneRequestEach. intros Hrun [Hnd Hcur].
  revert Hrun. unfold fanOut. unfold bind at 1. unfold getCam at 1.
  destruct (mSyncSupported (cam m)).
  - unfold bind at 1. unfold bind at 1. unfold modifyCam at 1.
    match goal with
    | |- context [drainRequests b ?l 0 ?m0] =>
        destruct (drainRequests b l 0 m0) as [[n1 m1]|] eqn:Hdrain;
        [|discriminate]
    end.
    apply drainRequests_queues in Hdrain as (kept & Hsub & Hnext & Hempty).
    cbn in Hnext. rewrite Hcur in Hnext. cbn in Hnext.
    assert (Hcur1 : mCurrentRequests (cam m1) = []).
    { rewrite Hempty. cbn. destruct (mNextRequests (cam m)); reflexivity. }
    unfold bind at 1. unfold modifyCam at 1. unfold bind at 1.
    match goal with
    | |- context [forwardFrame b ?s ?l 0 ?m2] =>
        destruct (forwardFrame b s l 0 m2) as [[n3 m3]|] eqn:Hfwd;
        [|discriminate]
    end.
    apply forwardFrame_cam in Hfwd. cbn in Hfwd.
    intros [= <- <-]. rewrite Hfwd. cbn. rewrite Hnext, Hcur1.
    split; [|reflexivity].
    apply (sublist_NoDup _ (requesters (mNextRequests (cam m))) Hnd).
    apply requesters_sublist. exact Hsub.
  - unfold bind at 1. unfold ret at 1.
    unfold bind at 1. unfold modifyCam at 1. unfold bind at 1.
    match goal with
    | |- context [forwardFrame b ?s ?l 0 ?m2] =>
        destruct (forwardFrame b s l 0 m2) as [[n3 m3]|] eqn:Hfwd;
        [|discriminate]
    end.
    apply forwardFrame_cam in Hfwd. cbn in Hfwd.
    intros [= <- <-]. rewrite Hfwd. cbn. auto.
Qed.

Lemma deliverFrame_1_1_queues (m m' : Machine World) buffer :
  deliverFrame_1_1 refKind buffer m = Some (tt, m') ->
  oneRequestEach (cam m) ->
  oneRequestEach (cam m').
Proof.
  unfold deliverFrame_1_1. destruct buffer as [|b rest]; [discriminate|].
  unfold bind at 1.
  destruct (fanOut b m) as [[total m1]|] eqn:Hfan; [|discriminate].
  intros Hrun Hinv. pose proof (fanOut_queues _ _ _ _ Hfan Hinv) as Hinv1.
  revert Hrun. run_op. destruct (total <? 1); intros [= <-]; exact Hinv1.
Qed.

Lemma perform_keeps (m m' : Machine World) call :
  oneRequestEach (cam m) ->
  polite call m = true ->
  perform refKind call m = Some (tt, m') ->
  oneRequestEach (cam m').
Proof.
  intros Hinv Hpolite. pose proof Hinv as [Hnd Hcur].
  destruct call as [vc|vc|c ts|c|buffer|buffer]; cbn [perform].
  - unfold bind.
    destruct (ownVirtualCamera vc m) as [[r m1]|] eqn:Hown; [|discriminate].
    intros [= <-]. apply ownVirtualCamera_queues in Hown as [Hn Hc].
    unfold oneRequestEach. rewrite Hn, Hc. exact Hinv.
  - intros Hrun. apply disownVirtualCamera_queues in Hrun as [Hn Hc].
    unfold oneRequestEach. rewrite Hn, Hc. exact Hinv.
  - unfold bind.
    destruct (requestNewFrame c ts m) as [[r m1]|] eqn:Hreq; [|discriminate].
    intros [= <-]. apply requestNewFrame_queues in Hreq as [Hc Hn].
    unfold oneRequestEach. rewrite Hc.
    destruct Hn as [-> | ->]; [exact Hinv|].
    split; [|exact Hcur].
    unfold requesters. rewrite map_app. cbn [map client].
    apply NoDup_app. split; [exact Hnd|]. split; [|apply NoDup_singleton].
    intros x Hx Hx'. apply list_elem_of_singleton in Hx'. subst x.
    cbn [polite] in Hpolite. apply negb_true_iff in Hpolite.
    apply memZ_spec in Hx. unfold requesters in Hpolite. congruence.
  - intros Hrun.
    destruct (clientStreamEnding_runs m c)
      as (m2 & evs & Hrun2 & Hc & _ & _ & Hq).
    rewrite Hrun in Hrun2. injection Hrun2 as <-.
    unfold oneRequestEach. rewrite Hc. split; [|exact Hcur].
    destruct (eraseRequest c (mNextRequests (cam m))) as [reqs|] eqn:He.
    + destruct Hq as [-> _].
      apply (sublist_NoDup _ (requesters (mNextRequests (cam m))) Hnd).
      apply requesters_sublist. apply (eraseRequest_sublist c). exact He.
    + destruct Hq as [-> _]. exact Hnd.
  - intros Hrun. apply (deliverFrame_1_1_queues m m' buffer Hrun Hinv).
  - intros Hrun. apply doneWithFrame_1_1_queues in Hrun as [Hn Hc].
    unfold oneRequestEach. rewrite Hn, Hc. exact Hinv.
Qed.

(** C9, amended: as long as no client calls requestNewFrame while a
    request of its own is still queued, the next queue holds at most one
    request per client in every state the session reaches through
    attach, detach, request, stream-ending, frame-delivery and
    completion calls, and the queue being drained is empty between
    calls. *)
Theorem polite_clients_one_request_each (m0 m : Machine World) :
  oneRequestEach (cam m0) ->
  reachable refKind m0 m ->
  oneRequestEach (cam m).
Proof.
  intros Hinv Hreach. induction Hreach as [|m1 call m2 _ IH Hpolite Hrun].
  - exact Hinv.
  - apply (perform_keeps m1 m2 call IH Hpolite Hrun).
Qed.
End OneRequest.

Section Reaching.
Context {World : Type} `{!Collaborators World}.
Variable refKind : IntKind.

Lemma performPolitely_reachable (m0 : Machine World) : forall calls m1 m,
  reachable refKind m0 m1 ->
  performPolitely refKind calls m1 = Some m ->
  reachable refKind m0 m.
Proof.
  induction calls as [|call rest IH]; intros m1 m Hreach; cbn [performPolitely].
  - intros [= <-]. exact Hreach.
  - destruct (polite call m1) eqn:Hpolite; [|discriminate].
    destruct (perform refKind call m1) as [[[] m2]|] eqn:Hrun; [|discriminate].
    apply IH. apply (reach_call refKind m0 m1 call m2 Hreach Hpolite Hrun).
Qed.
End Reaching.

(** Clients 10 and 20 attach and take turns asking; a frame arrives in
    between. *)
Lemma polite_clients_one_request_each_witness :
  match performPolitely SignedInt
          [CallOwn 10; CallOwn 20; CallRequestNewFrame 10 0;
           CallRequestNewFrame 20 99000; CallDeliverFrame [frame7];
           CallRequestNewFrame 10 100000]
          (start (newHalCamera true) bench0) with
  | Some m => oneRequestEach (cam m)
  | None => False
  end.
Proof.
  destruct (performPolitely _ _ _) as [m|] eqn:Hrun.
  - apply (polite_clients_one_request_each SignedInt
             (start (newHalCamera true) bench0) m).
    + split; [constructor|reflexivity].
    + apply (performPolitely_reachable SignedInt _ _ _ _
               (reach_start SignedInt _) Hrun).
  - vm_compute in Hrun. discriminate Hrun.
Defined.

(** C9 as stated fails: nothing stops a client from asking again before
    its first request was served, and both requests are queued. *)
Lemma requestNewFrame_twice_queues_twice :
  exists m,
    askTwice = Some m
    /\ requesters (mNextRequests (cam m)) = [10; 10]
    /\ ~ NoDup (requesters (mNextRequests (cam m))).
Proof.
  eexists. split; [vm_compute; reflexivity|]. split; [reflexivity|].
  cbn. intros Hnd. apply NoDup_cons in Hnd as [Hnotin _].
  apply Hnotin. apply list_elem_of_singleton. reflexivity.
Qed.

(** ** Scenarios *)

(** A fence-aware client asks for the frame after 90000.  The frame stamped
    100000 comes too soon: the request is queued again and the skip counter
    goes up.  The frame stamped 106000 is delivered and the timeline
    advances. *)
Example rate_limit_then_delivery :
  let m0 := start (fenced [mkFrameRequest 10 90000]) bench0 in
  let first := deliverFrame_1_1 UnsignedInt [mkBuffer 7 100000] m0 in
  let second :=
    andThen (deliverFrame_1_1 UnsignedInt [mkBuffer 7 100000])
      (deliverFrame_1_1 UnsignedInt [mkBuffer 8 106000]) m0 in
  (camOf first ≫= (fun h => Some (mNextRequests h, mSyncFrames h))
   = Some ([mkFrameRequest 10 90000], 1)
   /\ effectsOf first = Some [HwDoneWithFrame_1_1 [mkBuffer 7 100000]])
  /\ (camOf second
      ≫= (fun h => Some (mNextRequests h, mTimelines h !! 10, mFrames h))
      = Some ([], Some (mkTimeline 1 1), [mkFrameRecord 8 1])
      /\ effectsOf second
         = Some [HwDoneWithFrame_1_1 [mkBuffer 7 100000];
                 VcDeliverFrame 10 (mkBuffer 8 106000) true]).
Proof. repeat split; vm_compute; reflexivity. Qed.

(** Frame 7 goes to two v1.0 clients: the first completion leaves the
    count at 1, the second returns the buffer. *)
Example two_clients_two_completions :
  let w := mkBench [10; 20] 2 0 true [10; 20] true OK 7 in
  let m0 := start (set_mClients [10; 20] (newHalCamera false)) w in
  let once :=
    andThen (deliverFrame_1_1 UnsignedInt [frame7])
      (doneWithFrame_1_1 UnsignedInt frame7) m0 in
  let twice :=
    andThen (deliverFrame_1_1 UnsignedInt [frame7])
      (andThen (doneWithFrame_1_1 UnsignedInt frame7)
         (doneWithFrame_1_1 UnsignedInt frame7)) m0 in
  (camOf once ≫= (fun h => Some (mFrames h)) = Some [mkFrameRecord 7 1]
   /\ effectsOf once
      = Some [VcDeliverFrame 10 frame7 true; VcDeliverFrame 20 frame7 true])
  /\ (camOf twice ≫= (fun h => Some (mFrames h)) = Some [mkFrameRecord 7 0]
      /\ effectsOf twice
         = Some [VcDeliverFrame 10 frame7 true; VcDeliverFrame 20 frame7 true;
                 HwDoneWithFrame_1_1 [frame7]]).
Proof. repeat split; vm_compute; reflexivity. Qed.

(** One client allowing two buffers attaches and detaches: the hardware is
    asked for 2 buffers, then for 1. *)
Example attach_then_detach :
  effectsOf
    (andThen (ownVirtualCamera 10) (disownVirtualCamera 10)
       (start (newHalCamera false) bench1))
  = Some [HwSetMaxFramesInFlight 2; HwSetMaxFramesInFlight 1].
Proof. vm_compute. reflexivity. Qed.

(** * Further properties *)

(** ** Attaching and detaching *)

Section Membership.
Context {World : Type} `{!Collaborators World}.

Lemma int32_wrap32 x a : wrap32 (x + int32 a) = wrap32 (x + a).
Proof.
  unfold wrap32, int32.
  replace (x + ((a + 2 ^ 31) mod 2 ^ 32 - 2 ^ 31))
    with ((a + 2 ^ 31) mod 2 ^ 32 + (x - 2 ^ 31)) by lia.
  rewrite Zplus_mod_idemp_l. f_equal. lia.
Qed.

(** The count asked for when [vc] attaches: its allowance passes through
    [int] and back without loss. *)
Lemma requestedBufferCount_attach w clients a :
  requestedBufferCount w clients (int32 a)
  = Z.max 1 (wrap32 (liveAllowanceSum w clients + a)).
Proof. rewrite requestedBufferCount_wrapped, int32_wrap32. reflexivity. Qed.

Lemma changeFramesInFlight_runs (m : Machine World) delta :
  let demand := requestedBufferCount (world m) (mClients (cam m)) delta in
  let answer := hw_setMaxFramesInFlight (world m) demand in
  changeFramesInFlight delta m
  = Some (answer.1,
          mkMachine
            (if answer.1
             then set_mFrames (List.filter isActive (mFrames (cam m))) (cam m)
             else cam m)
            answer.2 (trace m ++ [HwSetMaxFramesInFlight demand])).
Proof.
  intros demand answer. unfold changeFramesInFlight. run_op.
  fold demand. fold answer. destruct (answer.1); reflexivity.
Qed.

Lemma ownVirtualCamera_runs (m : Machine World) vc :
  vc <> nullptr ->
  let demand :=
    requestedBufferCount (world m) (mClients (cam m))
      (int32 (vc_getAllowedBuffers (world m) vc)) in
  let answer := hw_setMaxFramesInFlight (world m) demand in
  let h1 := set_mFrames (List.filter isActive (mFrames (cam m))) (cam m) in
  let h2 := if mSyncSupported (cam m)
            then set_mTimelines (<[vc := mkTimeline 0 0]> (mTimelines h1)) h1
            else h1 in
  ownVirtualCamera vc m
  = Some (answer.1,
          mkMachine
            (if answer.1 then set_mClients (mClients h2 ++ [vc]) h2 else cam m)
            answer.2
            ((trace m ++ [HwSetMaxFramesInFlight demand])
               ++ (if answer.1 then replacedTimeline (cam m) vc else []))).
Proof.
  intros Hvc demand answer h1 h2. unfold ownVirtualCamera.
  apply Z.eqb_neq in Hvc. rewrite Hvc.
  unfold bind at 1. unfold getWorld at 1. unfold bind at 1.
  rewrite changeFramesInFlight_runs. fold demand. fold answer.
  destruct (answer.1); cbn [negb]; [|rewrite app_nil_r; reflexivity].
  run_op. subst h2 h1. unfold replacedTimeline.
  cbn [set_mFrames mSyncSupported mTimelines].
  destruct (mSyncSupported (cam m)); [|rewrite app_nil_r; reflexivity].
  destruct (mTimelines (cam m) !! vc); cbn [cam world trace];
    rewrite ?app_nil_r; reflexivity.
Qed.

Lemma resizeRequests_replacedTimeline (h : HalCamera) vc :
  resizeRequests (replacedTimeline h vc) = [].
Proof.
  unfold replacedTimeline.
  destruct (mSyncSupported h); [|reflexivity].
  destruct (mTimelines h !! vc); reflexivity.
Qed.

Lemma disownVirtualCamera_runs (m : Machine World) vc :
  vc <> nullptr ->
  let remaining := without vc (mClients (cam m)) in
  let h1 := set_mClients remaining (cam m) in
  let demand := requestedBufferCount (world m) remaining 0 in
  let answer := hw_setMaxFramesInFlight (world m) demand in
  disownVirtualCamera vc m
  = Some (tt,
          mkMachine
            (if answer.1
             then set_mFrames (List.filter isActive (mFrames h1)) h1
             else h1)
            answer.2 (trace m ++ [HwSetMaxFramesInFlight demand])).
Proof.
  intros Hvc remaining h1 demand answer. unfold disownVirtualCamera.
  apply Z.eqb_neq in Hvc. rewrite Hvc.
  unfold bind at 1. unfold modifyCam at 1. unfold bind at 1.
  rewrite changeFramesInFlight_runs. reflexivity.
Qed.

Lemma without_spec vc clients c :
  c ∈ without vc clients <-> c ∈ clients /\ c <> vc.
Proof.
  unfold without. rewrite !list_elem_of_In, filter_In, negb_true_iff.
  rewrite Z.eqb_neq. reflexivity.
Qed.

Lemma without_absent vc clients :
  vc ∉ clients -> without vc clients = clients.
Proof.
  unfold without. induction clients as [|c clients IH]; [reflexivity|].
  rewrite not_elem_of_cons. intros [Hne Hnot]. cbn [List.filter].
  assert (E : (c =? vc) = false) by (apply Z.eqb_neq; congruence).
  rewrite E. cbn [negb]. rewrite IH by exact Hnot. reflexivity.
Qed.

Lemma without_app vc l1 l2 :
  without vc (l1 ++ l2) = without vc l1 ++ without vc l2.
Proof. unfold without. apply List.filter_app. Qed.

(** X1: when the hardware accepts the new buffer count, ownVirtualCamera
    returns true, asks the hardware once for the live clients' allowances
    plus the newcomer's (modulo 2^32, at least 1), appends the client to
    the membership list, drops the frame records nobody holds, and on a
    session with fence support installs a fresh timeline for the client;
    a timeline the client already had is destroyed then, as it was stored,
    after the hardware call.  Nothing else is recorded. *)
Theorem ownVirtualCamera_accepted (m : Machine World) (vc : Z) :
  vc <> nullptr ->
  let demand :=
    Z.max 1 (wrap32 (liveAllowanceSum (world m) (mClients (cam m))
                     + vc_getAllowedBuffers (world m) vc)) in
  (hw_setMaxFramesInFlight (world m) demand).1 = true ->
  exists m',
    ownVirtualCamera vc m = Some (true, m')
    /\ trace m'
       = trace m ++ [HwSetMaxFramesInFlight demand]
           ++ (if mSyncSupported (cam m)
               then match mTimelines (cam m) !! vc with
                    | Some old => [TimelineDestroyed vc old]
                    | None => []
                    end
               else [])
    /\ mClients (cam m') = mClients (cam m) ++ [vc]
    /\ mFrames (cam m') = List.filter isActive (mFrames (cam m))
    /\ mTimelines (cam m')
       = (if mSyncSupported (cam m)
          then <[vc := mkTimeline 0 0]> (mTimelines (cam m))
          else mTimelines (cam m))
    /\ mMaster (cam m') = mMaster (cam m)
    /\ mStreamState (cam m') = mStreamState (cam m)
    /\ mNextRequests (cam m') = mNextRequests (cam m).
Proof.
  intros Hvc demand Hyes.
  rewrite (ownVirtualCamera_runs m vc Hvc).
  rewrite requestedBufferCount_attach. fold demand. rewrite Hyes.
  eexists. split; [reflexivity|]. cbn [cam trace].
  split; [rewrite <- app_assoc; reflexivity|].
  destruct (mSyncSupported (cam m)); repeat split; reflexivity.
Qed.

(** X2: makeVirtualCamera hands the new client out exactly when the
    hardware accepted the buffer count; when it refused, the result is
    nullptr and the object is as before. *)
Theorem makeVirtualCamera_result (m : Machine World) (client : Z) :
  client <> nullptr ->
  let demand :=
    Z.max 1 (wrap32 (liveAllowanceSum (world m) (mClients (cam m))
                     + vc_getAllowedBuffers (world m) client)) in
  exists r m',
    makeVirtualCamera client m = Some (r, m')
    /\ r = (if (hw_setMaxFramesInFlight (world m) demand).1
            then client else nullptr)
    /\ (r = nullptr -> cam m' = cam m)
    /\ (r <> nullptr ->
          mClients (cam m') = mClients (cam m) ++ [client]).
Proof.
  intros Hc demand. unfold makeVirtualCamera.
  pose proof Hc as Hc'. apply Z.eqb_neq in Hc'. rewrite Hc'.
  unfold bind. rewrite (ownVirtualCamera_runs m client Hc).
  rewrite requestedBufferCount_attach. fold demand.
  destruct (hw_setMaxFramesInFlight (world m) demand) as [[] w1];
    cbn [fst snd negb]; unfold ret; eexists _, _;
    (split; [reflexivity|]); cbn [cam].
  - split; [reflexivity|]. split; [congruence|]. intros _.
    destruct (mSyncSupported (cam m)); reflexivity.
  - split; [reflexivity|]. split; [reflexivity|]. congruence.
Qed.

(** X3: disownVirtualCamera removes every entry of the client from the
    membership list and asks the hardware once for the remaining live
    clients' allowances (at least 1).  The client is detached also when
    the hardware refuses the new count; its timeline, if any, stays in the
    registry, and the request queue is not touched. *)
Theorem disownVirtualCamera_detaches (m : Machine World) (vc : Z) :
  vc <> nullptr ->
  let remaining := without vc (mClients (cam m)) in
  let demand := Z.max 1 (wrap32 (liveAllowanceSum (world m) remaining)) in
  exists m',
    disownVirtualCamera vc m = Some (tt, m')
    /\ mClients (cam m') = remaining
    /\ (vc ∉ mClients (cam m'))
    /\ (forall c, c <> vc -> c ∈ mClients (cam m) -> c ∈ mClients (cam m'))
    /\ trace m' = trace m ++ [HwSetMaxFramesInFlight demand]
    /\ mFrames (cam m')
       = (if (hw_setMaxFramesInFlight (world m) demand).1
          then List.filter isActive (mFrames (cam m))
          else mFrames (cam m))
    /\ mTimelines (cam m') = mTimelines (cam m)
    /\ mNextRequests (cam m') = mNextRequests (cam m).
Proof.
  intros Hvc remaining demand.
  rewrite (disownVirtualCamera_runs m vc Hvc).
  rewrite requestedBufferCount_wrapped, Z.add_0_r.
  fold remaining. fold demand.
  eexists. split; [reflexivity|]. cbn [cam trace].
  assert (Hgone : vc ∉ remaining).
  { intros Hin. apply without_spec in Hin. tauto. }
  assert (Hkeep : forall c, c <> vc -> c ∈ mClients (cam m) -> c ∈ remaining).
  { intros c Hne Hin. apply without_spec. auto. }
  destruct ((hw_setMaxFramesInFlight (world m) demand).1);
    repeat split; auto.
Qed.

(** X4: a client that was not a member, attached and detached again with
    the hardware accepting both buffer counts (the one asked for at the
    attach, and the one asked for at the detach in the state the attach
    left the hardware in), leaves the membership list as it was; the
    hardware has been asked twice; on a session with fence support the
    timeline created for the client is left behind. *)
Theorem attach_detach_round_trip (m : Machine World) (vc : Z) :
  vc <> nullptr ->
  vc ∉ mClients (cam m) ->
  let attached :=
    hw_setMaxFramesInFlight (world m)
      (requestedBufferCount (world m) (mClients (cam m))
         (int32 (vc_getAllowedBuffers (world m) vc))) in
  attached.1 = true ->
  (hw_setMaxFramesInFlight attached.2
     (requestedBufferCount attached.2 (mClients (cam m)) 0)).1 = true ->
  exists m',
    andThen (ownVirtualCamera vc) (disownVirtualCamera vc) m = Some (tt, m')
    /\ mClients (cam m') = mClients (cam m)
    /\ mFrames (cam m') = List.filter isActive (mFrames (cam m))
    /\ mTimelines (cam m')
       = (if mSyncSupported (cam m)
          then <[vc := mkTimeline 0 0]> (mTimelines (cam m))
          else mTimelines (cam m))
    /\ length (resizeRequests (trace m'))
       = (length (resizeRequests (trace m)) + 2)%nat.
Proof.
  intros Hvc Hnew attached Hyes1 Hyes2. unfold andThen, bind.
  rewrite (ownVirtualCamera_runs m vc Hvc). fold attached. rewrite Hyes1.
  rewrite (disownVirtualCamera_runs _ vc Hvc). cbn [cam world trace].
  assert (Hback : forall l, l = mClients (cam m) ->
                            without vc (l ++ [vc]) = mClients (cam m)).
  { intros l ->. rewrite without_app, without_absent by exact Hnew.
    unfold without. cbn [List.filter]. rewrite Z.eqb_refl. cbn [negb].
    apply app_nil_r. }
  assert (Hmembers :
            without vc
              (mClients
                 (set_mClients
                    (mClients
                       (if mSyncSupported (cam m)
                        then set_mTimelines
                               (<[vc := mkTimeline 0 0]>
                                  (mTimelines
                                     (set_mFrames
                                        (List.filter isActive (mFrames (cam m)))
                                        (cam m))))
                               (set_mFrames
                                  (List.filter isActive (mFrames (cam m)))
                                  (cam m))
                        else set_mFrames
                               (List.filter isActive (mFrames (cam m)))
                               (cam m)) ++ [vc])
                    (if mSyncSupported (cam m)
                     then set_mTimelines
                            (<[vc := mkTimeline 0 0]>
                               (mTimelines
                                  (set_mFrames
                                     (List.filter isActive (mFrames (cam m)))
                                     (cam m))))
                            (set_mFrames
                               (List.filter isActive (mFrames (cam m)))
                               (cam m))
                     else set_mFrames
                            (List.filter isActive (mFrames (cam m)))
                            (cam m))))
            = mClients (cam m)).
  { destruct (mSyncSupported (cam m)); cbn [set_mClients mClients];
      apply Hback; reflexivity. }
  rewrite Hmembers, Hyes2.
  eexists. split; [reflexivity|]. cbn [cam trace].
  assert (Hidem : forall l : list FrameRecord,
            List.filter isActive (List.filter isActive l)
            = List.filter isActive l).
  { induction l as [|r l IH]; [reflexivity|]. cbn [List.filter].
    destruct (isActive r) eqn:E; [|exact IH].
    cbn [List.filter]. rewrite E, IH. reflexivity. }
  pose proof (resizeRequests_replacedTimeline (cam m) vc) as Hrep.
  unfold resizeRequests in *. rewrite !omap_app, !length_app, Hrep.
  cbn [omap length].
  destruct (mSyncSupported (cam m));
    cbn [set_mClients set_mFrames set_mTimelines mClients mFrames mTimelines];
    rewrite ?Hback by reflexivity; rewrite Hidem;
    repeat split; try reflexivity; cbn [list_omap length]; lia.
Qed.
End Membership.

(** ** The stream state machine *)

Section Stream.
Context {World : Type} `{!Collaborators World}.

Lemma stillStreaming_none w clients :
  noneStreaming w clients ->
  fold_left (stillStreaming w) clients false = false.
Proof.
  unfold noneStreaming. induction clients as [|x clients IH]; intros Hnone.
  - reflexivity.
  - cbn [fold_left]. unfold stillStreaming at 2.
    destruct (promote w x =? nullptr) eqn:Hp.
    + apply IH. intros y Hy. apply Hnone. apply elem_of_cons. auto.
    + rewrite Hnone; [|apply elem_of_cons; auto|apply Z.eqb_neq; exact Hp].
      cbn [orb]. apply IH. intros y Hy. apply Hnone. apply elem_of_cons. auto.
Qed.

(** Forwarding an event always ends; the object is not touched and only
    members of the list are notified. *)
Lemma forwardEvent_runs (event : EvsEventDesc) :
  forall clients (m : Machine World),
  exists m' evs,
    forwardEvent event clients m = Some (tt, m')
    /\ cam m' = cam m
    /\ trace m' = trace m ++ evs
    /\ Forall (fun e => exists c, e = VcNotify c event /\ c ∈ clients) evs.
Proof.
  induction clients as [|c clients IH]; intros m.
  - exists m, []. cbn. rewrite app_nil_r. auto.
  - cbn [forwardEvent]. run_op.
    destruct (promote (world m) c =? nullptr) eqn:Hp.
    + destruct (IH m) as (m' & evs & Hrun & Hcam & Htr & Hall).
      exists m', evs. repeat split; auto.
      apply (Forall_impl _ _ _ Hall). intros e (c' & -> & Hin).
      exists c'. split; [reflexivity|]. apply elem_of_cons. auto.
    + rewrite (promote_of_live _ _ Hp).
      match goal with
      | |- context [forwardEvent event clients ?m1] =>
          destruct (IH m1) as (m' & evs & Hrun & Hcam & Htr & Hall)
      end.
      exists m', (VcNotify c event :: evs).
      split; [exact Hrun|]. split; [exact Hcam|].
      split; [rewrite Htr; cbn [trace]; rewrite <- app_assoc; reflexivity|].
      constructor.
      * exists c. split; [reflexivity|]. apply elem_of_cons. auto.
      * apply (Forall_impl _ _ _ Hall). intros e (c' & -> & Hin).
        exists c'. split; [reflexivity|]. apply elem_of_cons. auto.
Qed.

(** X5: notify applies a STREAM_STOPPED event whatever the stream state
    is, leaves the state alone for every other event, changes nothing
    else in the object, and sends the event once to every live member in
    membership order. *)
Theorem notify_forwards (m : Machine World) (event : EvsEventDesc) :
  notifyKeepsClients World ->
  exists m',
    notify event m = Some (tt, m')
    /\ cam m' = (if isStreamStopped (aType event)
                 then set_mStreamState STOPPED (cam m) else cam m)
    /\ trace m'
       = trace m ++ broadcast event (liveClients (world m) (mClients (cam m))).
Proof.
  intros Hkeep. unfold notify. unfold bind at 1.
  destruct (isStreamStopped (aType event)).
  - unfold modifyCam at 1. unfold bind at 1. unfold getCam at 1.
    cbn [cam set_mStreamState mClients].
    destruct (forwardEvent_broadcast event Hkeep (mClients (cam m))
                (mkMachine (set_mStreamState STOPPED (cam m)) (world m)
                   (trace m)))
      as (m' & Hrun & Hcam & Htr & _).
    exists m'. split; [exact Hrun|]. split; [exact Hcam|exact Htr].
  - unfold ret at 1. unfold bind at 1. unfold getCam at 1.
    destruct (forwardEvent_broadcast event Hkeep (mClients (cam m)) m)
      as (m' & Hrun & Hcam & Htr & _).
    exists m'. split; [exact Hrun|]. split; [exact Hcam|exact Htr].
Qed.

(** X6: when no live member is streaming once the caller is taken off the
    list, clientStreamEnding asks the hardware to stop and sets the state
    to STOPPING, whatever it was.  In that state clientStreamStarting
    answers OK without starting the hardware; only after the
    STREAM_STOPPED event came in does clientStreamStarting start the
    hardware stream again. *)
Theorem stop_then_restart (m : Machine World) (c : Z) :
  noneStreaming (world m) (eraseClient (world m) c (mClients (cam m))) ->
  exists m1 m2 r m3 evs1 evs2,
    clientStreamEnding c m = Some (tt, m1)
    /\ mStreamState (cam m1) = STOPPING
    /\ trace m1 = trace m ++ evs1 ++ [HwStopVideoStream]
    /\ clientStreamStarting m1 = Some (OK, m1)
    /\ notify streamStopped m1 = Some (tt, m2)
    /\ mStreamState (cam m2) = STOPPED
    /\ trace m2 = trace m1 ++ evs2
    /\ clientStreamStarting m2 = Some (r, m3)
    /\ r = (hw_startVideoStream (world m2)).1
    /\ mStreamState (cam m3) = RUNNING
    /\ trace m3 = trace m2 ++ [HwStartVideoStream].
Proof.
  intros Hnone. apply stillStreaming_none in Hnone.
  assert (Hend : exists m1 evs1,
             clientStreamEnding c m = Some (tt, m1)
             /\ mStreamState (cam m1) = STOPPING
             /\ trace m1 = trace m ++ evs1 ++ [HwStopVideoStream]).
  { unfold clientStreamEnding. run_op.
    destruct (eraseRequest c (mNextRequests (cam m))) as [reqs|];
      [destruct (mTimelines (cam m) !! c) as [t|]|];
      cbn [cam world trace set_mClients set_mNextRequests set_mTimelines
           mClients]; rewrite Hnone; cbn [cam world trace].
    - eexists _, [_]. split; [reflexivity|]. split; [reflexivity|].
      cbn [trace]. rewrite <- app_assoc. reflexivity.
    - eexists _, []. split; [reflexivity|]. split; reflexivity.
    - eexists _, []. split; [reflexivity|]. split; reflexivity. }
  destruct Hend as (m1 & evs1 & Hrun1 & Hst1 & Htr1).
  assert (Hidle : clientStreamStarting m1 = Some (OK, m1)).
  { unfold clientStreamStarting. run_op. rewrite Hst1. reflexivity. }
  assert (Hev : exists m2 evs2,
             notify streamStopped m1 = Some (tt, m2)
             /\ mStreamState (cam m2) = STOPPED
             /\ trace m2 = trace m1 ++ evs2).
  { unfold notify. unfold bind at 1. cbn [streamStopped aType isStreamStopped].
    unfold modifyCam at 1. unfold bind at 1. unfold getCam at 1.
    cbn [cam set_mStreamState mClients].
    destruct (forwardEvent_runs (mkEvent STREAM_STOPPED 0 0) (mClients (cam m1))
                (mkMachine (set_mStreamState STOPPED (cam m1)) (world m1)
                   (trace m1)))
      as (m2 & evs2 & Hrun2 & Hcam2 & Htr2 & _).
    exists m2, evs2. split; [exact Hrun2|]. rewrite Hcam2. auto. }
  destruct Hev as (m2 & evs2 & Hrun2 & Hst2 & Htr2).
  exists m1, m2. eexists _, _, evs1, evs2.
  split; [exact Hrun1|]. split; [exact Hst1|]. split; [exact Htr1|].
  split; [exact Hidle|]. split; [exact Hrun2|]. split; [exact Hst2|].
  split; [exact Htr2|].
  unfold clientStreamStarting. run_op. rewrite Hst2. cbn [isStopped].
  split; [reflexivity|]. repeat split.
Qed.
End Stream.

(** ** Giving the master role up *)

Section Release.
Context {World : Type} `{!Collaborators World}.

(** X7: unsetMaster by the live master clears the slot, answers OK and
    sends MASTER_RELEASED to every live member, the former master
    included when it is a member; afterwards setMaster succeeds for
    anyone.  A live client that is not the master gets INVALID_ARG and
    nothing changes. *)
Theorem unsetMaster_releases (m : Machine World) (caller : Z) :
  caller <> nullptr ->
  vc_alive (world m) caller = true ->
  notifyKeepsClients World ->
  (mMaster (cam m) = caller ->
     exists m',
       unsetMaster caller m = Some (OK, m')
       /\ cam m' = set_mMaster nullptr (cam m)
       /\ trace m'
          = trace m
            ++ broadcast masterReleased
                 (liveClients (world m) (mClients (cam m)))
       /\ forall c, setMaster c m' = Some (OK, withMaster c m'))
  /\ (mMaster (cam m) <> caller ->
        unsetMaster caller m = Some (INVALID_ARG, m)).
Proof.
  intros Hc Halive Hkeep. split.
  - intros Hm. unfold unsetMaster. run_op.
    rewrite Hm, (promote_live _ _ Hc Halive), Z.eqb_refl. cbn [negb].
    unfold notify. cbn [aType isStreamStopped]. run_op.
    cbn [set_mMaster mClients].
    destruct (forwardEvent_broadcast (mkEvent MASTER_RELEASED 0 0) Hkeep
                (mClients (cam m))
                (mkMachine (set_mMaster nullptr (cam m)) (world m) (trace m)))
      as (m' & Hrun & Hcam & Htr & _).
    cbn [set_mMaster] in Hrun. rewrite Hrun. exists m'.
    split; [reflexivity|]. split; [exact Hcam|]. split; [exact Htr|].
    intros c. apply setMaster_free. rewrite Hcam. reflexivity.
  - intros Hm. unfold unsetMaster. run_op.
    assert (E : (promote (world m) (mMaster (cam m)) =? caller) = false).
    { apply Z.eqb_neq.
      destruct (promote_cases (world m) (mMaster (cam m))); congruence. }
    rewrite E. reflexivity.
Qed.
End Release.

(** ** Frame records over several calls *)

Section Records.
Context {World : Type} `{!Collaborators World}.
Variable refKind : IntKind.

Lemma findFrame_absent id frames :
  Forall (fun r => frameId r <> id) frames ->
  findFrame id frames = length frames.
Proof.
  induction 1 as [|r frames Hr _ IH]; [reflexivity|].
  cbn [findFrame length]. apply Z.eqb_neq in Hr. rewrite Hr, IH. reflexivity.
Qed.

Lemma findFrame_insert id c : forall frames rec,
  frames !! findFrame id frames = Some rec ->
  findFrame id (<[findFrame id frames := mkFrameRecord id c]> frames)
  = findFrame id frames.
Proof.
  induction frames as [|r frames IH]; intros rec; cbn [findFrame].
  - discriminate.
  - destruct (frameId r =? id) eqn:E.
    + intros _. cbn. rewrite Z.eqb_refl. reflexivity.
    + intros Hrec.
      change (findFrame id (r :: <[findFrame id frames := mkFrameRecord id c]> frames)
              = S (findFrame id frames)).
      cbn [findFrame]. rewrite E. f_equal. apply (IH rec). exact Hrec.
Qed.

Lemma findFrame_filter id : forall frames rec,
  frames !! findFrame id frames = Some rec ->
  isActive rec = true ->
  List.filter isActive frames !! findFrame id (List.filter isActive frames)
  = Some rec.
Proof.
  induction frames as [|r frames IH]; intros rec; cbn [findFrame].
  - discriminate.
  - destruct (frameId r =? id) eqn:E.
    + cbn. intros [= ->] Hact. rewrite Hact. cbn. rewrite E. reflexivity.
    + cbn [lookup list_lookup]. intros Hrec Hact. cbn [List.filter].
      destruct (isActive r).
      * cbn [findFrame]. rewrite E. cbn. apply (IH rec Hrec Hact).
      * apply (IH rec Hrec Hact).
Qed.

Lemma filter_isActive_all frames :
  Forall (fun r => 0 < refCount r) (List.filter isActive frames).
Proof.
  apply Forall_forall. intros r Hin. apply list_elem_of_In in Hin.
  apply filter_In in Hin as [_ Hact]. apply Z.ltb_lt. exact Hact.
Qed.

Lemma filter_isActive_none id frames :
  (forall r, r ∈ frames -> frameId r = id -> refCount r <= 0) ->
  Forall (fun r => frameId r <> id) (List.filter isActive frames).
Proof.
  intros Hstale. apply Forall_forall. intros r Hin Hid.
  apply list_elem_of_In in Hin. apply filter_In in Hin as [Hin Hact].
  apply Z.ltb_lt in Hact. apply list_elem_of_In in Hin.
  specialize (Hstale r Hin Hid). lia.
Qed.

(** [k] of the [n] completion calls a record is waiting for. *)
Lemma times_doneWithFrame_1_1 buffer : forall (k n : nat) (m : Machine World) rec,
  mFrames (cam m) !! findFrame (bufferId buffer) (mFrames (cam m)) = Some rec ->
  refCount rec = Z.of_nat n ->
  Z.of_nat n < 2 ^ 31 ->
  (k <= n)%nat ->
  exists m',
    times k (doneWithFrame_1_1 refKind buffer) m = Some (tt, m')
    /\ mFrames (cam m')
       = <[findFrame (bufferId buffer) (mFrames (cam m))
           := mkFrameRecord (bufferId buffer) (Z.of_nat (n - k))]>
           (mFrames (cam m))
    /\ trace m'
       = trace m ++ (if (0 <? k)%nat && (k =? n)%nat
                     then [HwDoneWithFrame_1_1 [buffer]] else []).
Proof.
  induction k as [|k IH]; intros n m rec Hrec Hcount Hsmall Hk.
  - exists m. cbn [times]. unfold ret. split; [reflexivity|].
    rewrite Nat.sub_0_r, app_nil_r. split; [|reflexivity].
    symmetry. apply list_insert_id. rewrite Hrec. f_equal.
    destruct rec as [fid rc]. cbn in Hcount. subst rc. f_equal.
    apply (findFrame_found _ _ _ Hrec).
  - destruct n as [|n]; [lia|].
    cbn [times]. unfold bind.
    rewrite (doneWithFrame_1_1_in_use refKind m buffer rec Hrec) by lia.
    set (i := findFrame (bufferId buffer) (mFrames (cam m))).
    set (frames1 := <[i := mkFrameRecord (bufferId buffer) (refCount rec - 1)]>
                      (mFrames (cam m))).
    assert (Hi : findFrame (bufferId buffer) frames1 = i).
    { subst frames1 i. apply (findFrame_insert _ _ _ rec Hrec). }
    assert (Hlt : (i < length (mFrames (cam m)))%nat).
    { apply (lookup_lt_Some _ _ _ Hrec). }
    match goal with
    | |- context [times k _ ?m1] =>
        destruct (IH n m1 (mkFrameRecord (bufferId buffer) (refCount rec - 1)))
          as (m' & Hrun & Hfr & Htr)
    end.
    + cbn [cam set_mFrames mFrames]. fold frames1. rewrite Hi.
      subst frames1. apply list_lookup_insert_eq. exact Hlt.
    + cbn [refCount]. lia.
    + lia.
    + lia.
    + exists m'. split; [exact Hrun|].
      cbn [cam set_mFrames mFrames trace] in Hfr, Htr. fold frames1 in Hfr.
      rewrite Hi in Hfr. split.
      * rewrite Hfr. subst frames1. rewrite list_insert_insert_eq.
        replace (S n - S k)%nat with (n - k)%nat by lia. reflexivity.
      * rewrite Htr, <- app_assoc. f_equal. rewrite Hcount.
        destruct (Z.eqb_spec (Z.of_nat (S n)) 1) as [E1|E1].
        -- assert (n = 0%nat) by lia. subst n.
           assert (k = 0%nat) by lia. subst k. reflexivity.
        -- destruct k as [|k].
           ++ cbn. destruct n; [lia|reflexivity].
           ++ cbn [app Nat.ltb Nat.leb andb Nat.eqb]. reflexivity.
Qed.

(** X8: a record waiting for [n] completions goes back to the hardware
    exactly once, with the [n]-th completion call and not before; after
    [k] calls its count is [n - k]. *)
Theorem completions_return_once (m : Machine World) (buffer : BufferDesc)
    (rec : FrameRecord) (n k : nat) :
  mFrames (cam m) !! findFrame (bufferId buffer) (mFrames (cam m)) = Some rec ->
  refCount rec = Z.of_nat n ->
  Z.of_nat n < 2 ^ 31 ->
  (k <= n)%nat ->
  exists m' evs,
    times k (doneWithFrame_1_1 refKind buffer) m = Some (tt, m')
    /\ mFrames (cam m') !! findFrame (bufferId buffer) (mFrames (cam m))
       = Some (mkFrameRecord (bufferId buffer) (Z.of_nat (n - k)))
    /\ trace m' = trace m ++ evs
    /\ returnedBuffers evs
       = (if (0 <? k)%nat && (k =? n)%nat then [buffer] else []).
Proof.
  intros Hrec Hcount Hsmall Hk.
  destruct (times_doneWithFrame_1_1 buffer k n m rec Hrec Hcount Hsmall Hk)
    as (m' & Hrun & Hfr & Htr).
  exists m'. eexists. split; [exact Hrun|]. split.
  - rewrite Hfr. apply list_lookup_insert_eq.
    apply (lookup_lt_Some _ _ _ Hrec).
  - split; [exact Htr|].
    destruct ((0 <? k)%nat && (k =? n)%nat); reflexivity.
Qed.

(** X9: a completion call for an identifier no record carries changes
    nothing and reaches no collaborator, for both overloads of
    doneWithFrame. *)
Theorem doneWithFrame_unknown_id (m : Machine World) (buffer : BufferDesc) :
  Forall (fun r => frameId r <> bufferId buffer) (mFrames (cam m)) ->
  doneWithFrame refKind buffer m = Some (tt, m)
  /\ doneWithFrame_1_1 refKind buffer m = Some (tt, m).
Proof.
  intros Hnone. apply findFrame_absent in Hnone.
  split; [|apply doneWithFrame_1_1_unknown; exact Hnone].
  unfold doneWithFrame. run_op. rewrite Hnone.
  rewrite (lookup_ge_None_2 (mFrames (cam m)) _ (Nat.le_refl _)).
  reflexivity.
Qed.

(** X10: a resize the hardware accepts keeps every record somebody still
    holds, so that a completion call finds the same record as before, and
    it leaves no record with a count of 0 or less; a late completion call
    for an identifier that only stale records carried then changes
    nothing. *)
Theorem resize_keeps_records_in_use (m : Machine World) (delta : Z)
    (buffer : BufferDesc) :
  (hw_setMaxFramesInFlight (world m)
     (requestedBufferCount (world m) (mClients (cam m)) delta)).1 = true ->
  exists m',
    changeFramesInFlight delta m = Some (true, m')
    /\ Forall (fun r => 0 < refCount r) (mFrames (cam m'))
    /\ (forall rec,
          mFrames (cam m) !! findFrame (bufferId buffer) (mFrames (cam m))
          = Some rec ->
          0 < refCount rec ->
          mFrames (cam m') !! findFrame (bufferId buffer) (mFrames (cam m'))
          = Some rec)
    /\ ((forall r, r ∈ mFrames (cam m) -> frameId r = bufferId buffer ->
                   refCount r <= 0) ->
        doneWithFrame_1_1 refKind buffer m' = Some (tt, m')).
Proof.
  intros Hyes. rewrite changeFramesInFlight_runs, Hyes.
  eexists. split; [reflexivity|]. cbn [cam set_mFrames mFrames].
  split; [apply filter_isActive_all|]. split.
  - intros rec Hrec Hpos. apply (findFrame_filter _ _ _ Hrec).
    apply Z.ltb_lt. exact Hpos.
  - intros Hstale. apply doneWithFrame_1_1_unknown. cbn [cam set_mFrames mFrames].
    apply findFrame_absent. apply filter_isActive_none. exact Hstale.
Qed.
End Records.

(** ** Requests and fences *)

Section Fences.
Context {World : Type} `{!Collaborators World}.
Variable refKind : IntKind.

(** X11: requestNewFrame on a session without fence support hands out no
    fence and changes nothing.  With fence support, a client without a
    timeline in the registry makes the call dereference a null pointer;
    a client with a timeline gets a fence for the next value of its fence
    counter, still pending unless the timeline had run ahead of the fence
    counter, and its request goes to the end of the next queue.  No
    collaborator is called. *)
Theorem requestNewFrame_cases (m : Machine World) (c ts : Z) :
  (mSyncSupported (cam m) = false ->
     requestNewFrame c ts m = Some (None, m))
  /\ (mSyncSupported (cam m) = true ->
      mTimelines (cam m) !! c = None ->
        requestNewFrame c ts m = None)
  /\ (mSyncSupported (cam m) = true ->
      forall t, mTimelines (cam m) !! c = Some t ->
        exists f m',
          requestNewFrame c ts m = Some (Some f, m')
          /\ fence_owner f = c
          /\ fence_value f = fence_counter t + 1
          /\ mNextRequests (cam m')
             = mNextRequests (cam m) ++ [mkFrameRequest c ts]
          /\ mTimelines (cam m')
             = <[c := mkTimeline (timeline_counter t) (fence_counter t + 1)]>
                 (mTimelines (cam m))
          /\ mClients (cam m') = mClients (cam m)
          /\ world m' = world m
          /\ trace m' = trace m
          /\ (timeline_counter t <= fence_counter t ->
                fenceResolved
                  (mkTimeline (timeline_counter t) (fence_counter t + 1)) f
                = false)).
Proof.
  split; [|split].
  - intros Hs. unfold requestNewFrame. run_op. rewrite Hs. reflexivity.
  - intros Hs Ht. unfold requestNewFrame. run_op. rewrite Hs, Ht. reflexivity.
  - intros Hs t Ht. unfold requestNewFrame. run_op. rewrite Hs, Ht.
    cbn [negb]. eexists _, _. split; [reflexivity|].
    cbn [cam world trace CreateFence BumpFenceEventCounter fence_owner
         fence_value fence_counter timeline_counter].
    repeat split.
    unfold fenceResolved. cbn. intros Hbehind. apply Z.leb_gt. lia.
Qed.

(** X12: a live client with a timeline and nothing else queued asks for
    the next frame; a frame at least the threshold later, and less than
    2^63 later so that the difference of the timestamps is a 64-bit
    value, arrives and the client accepts it; the session has fewer than
    2^31 - 1 members.  The request is served and leaves the queue, the
    client's timeline has advanced by one event so that the fence handed
    out is resolved, and the frame is tracked with a count of at least
    one. *)
Theorem fence_resolved_by_delivery (m : Machine World) (c ts : Z)
    (t : UniqueTimeline) (b : BufferDesc) (rest : list BufferDesc) :
  mSyncSupported (cam m) = true ->
  mNextRequests (cam m) = [] ->
  mCurrentRequests (cam m) = [] ->
  mTimelines (cam m) !! c = Some t ->
  promote (world m) c <> nullptr ->
  kThreshold <= timestamp b - ts < 2 ^ 63 ->
  (vc_deliverFrame (world m) c b).1 = true ->
  Z.of_nat (length (mClients (cam m))) + 1 < 2 ^ 31 ->
  exists f m1 m2 r,
    requestNewFrame c ts m = Some (Some f, m1)
    /\ deliverFrame_1_1 refKind (b :: rest) m1 = Some (tt, m2)
    /\ mNextRequests (cam m2) = []
    /\ mTimelines (cam m2) !! c
       = Some (mkTimeline (timeline_counter t + 1) (fence_counter t + 1))
    /\ (fullySignaled t = true ->
          fenceResolved
            (mkTimeline (timeline_counter t + 1) (fence_counter t + 1)) f
          = true)
    /\ mFrames (cam m2) !! findFree (mFrames (cam m)) = Some r
    /\ frameId r = bufferId b
    /\ 1 <= refCount r.
Proof.
  intros Hs Hnext Hcur Ht Hlive Hrange Hyes Hsize.
  assert (Hlate : kThreshold
                  <= int64 (timestamp b - req_timestamp (mkFrameRequest c ts))).
  { cbn [req_timestamp]. rewrite int64_small; [lia|].
    unfold kThreshold in Hrange. lia. }
  assert (H0 : 0 <= 0 < 2 ^ 32) by (cbv; split; congruence).
  set (t1 := BumpFenceEventCounter t).
  set (req := mkFrameRequest c ts).
  set (m1 := mkMachine
               (set_mNextRequests [req]
                  (set_mTimelines (<[c := t1]> (mTimelines (cam m))) (cam m)))
               (world m) (trace m)).
  assert (Hreq : requestNewFrame c ts m = Some (Some (CreateFence c t1), m1)).
  { unfold requestNewFrame. run_op. rewrite Hs, Ht. cbn [negb].
    subst m1. cbn [set_mTimelines mNextRequests]. rewrite Hnext. reflexivity. }
  exists (CreateFence c t1), m1. rewrite Hreq.
  unfold deliverFrame_1_1. unfold bind at 1.
  rewrite (fanOut_drains m1 b Hs).
  change (mNextRequests (cam m1)) with [req].
  cbn [drainRequests]. unfold bind at 1. unfold bind at 1.
  unfold modifyCam at 1. unfold bind at 1.
  match goal with
  | |- context [serveRequest b req 0 ?m0] =>
      rewrite (serveRequest_offered m0 b req 0)
  end; [|exact Hlive|exact Hlate].
  cbn [swapped m1 client req cam world trace fst snd]. rewrite Hyes.
  cbn [set_mCurrentRequests set_mNextRequests set_mTimelines mTimelines
       mCurrentRequests mNextRequests].
  rewrite lookup_insert_eq. unfold ret at 1.
  unfold bind at 1. unfold modifyCam at 1. cbn [cam world trace].
  unfold bind at 1.
  match goal with
  | |- context [forwardFrame b true ?l 0 ?m3] =>
      destruct (forwardFrame_runs b true l 0 m3 H0)
        as (n3 & m4 & evs3 & Hrun3 & Hcam3 & Htr3 & Hdel3 & Hlen3 & Hn3)
  end.
  rewrite Hrun3. unfold ret at 1.
  pose proof (acceptances_bound evs3) as Hacc.
  cbn [set_mNextRequests set_mTimelines mClients] in Hlen3.
  assert (Hn3' : n3 = acceptances evs3).
  { rewrite Hn3, Z.add_0_l. apply wrap32_small. lia. }
  assert (Htot : wrap32 (n3 + wrap32 (0 + 1)) = acceptances evs3 + 1).
  { rewrite Hn3'. rewrite (wrap32_small (0 + 1)) by (cbv; split; congruence).
    apply wrap32_small. lia. }
  rewrite Htot.
  destruct (Z.ltb_spec (acceptances evs3 + 1) 1) as [Hbad|_]; [lia|].
  unfold modifyCam. eexists _, _. split; [reflexivity|]. split; [reflexivity|].
  cbn [cam trace]. rewrite Hcam3, Hcur.
  cbn [cam set_mFrames set_mFramesReceived set_mTimelines set_mCurrentRequests
       set_mNextRequests mNextRequests mTimelines mFrames].
  split; [reflexivity|].
  split.
  { rewrite lookup_insert_eq. reflexivity. }
  split.
  { unfold fullySignaled, fenceResolved. cbn. intros Hfull.
    apply Z.leb_le in Hfull. apply Z.leb_le. lia. }
  destruct (trackFrame_spec refKind (bufferId b) (acceptances evs3 + 1)
              (mFrames (cam m))) as (Hslot & _).
  split; [exact Hslot|]. cbn [frameId refCount].
  split; [reflexivity|]. rewrite normInt_small; lia.
Qed.

(** X13: on a session with fence support, when the first queued request
    belongs to a live client that has no timeline in the registry, lies
    at least the threshold and less than 2^63 back (so that the
    difference of the timestamps is a 64-bit value) and the client
    accepts the frame, deliverFrame_1_1 dereferences a null pointer after
    the client took the frame. *)
Theorem deliverFrame_1_1_missing_timeline (m : Machine World)
    (b : BufferDesc) (rest : list BufferDesc) (req : FrameRequest)
    (reqs : list FrameRequest) :
  mSyncSupported (cam m) = true ->
  mNextRequests (cam m) = req :: reqs ->
  mTimelines (cam m) !! client req = None ->
  promote (world m) (client req) <> nullptr ->
  kThreshold <= timestamp b - req_timestamp req < 2 ^ 63 ->
  (vc_deliverFrame (world m) (client req) b).1 = true ->
  deliverFrame_1_1 refKind (b :: rest) m = None.
Proof.
  intros Hs Hq Ht Hlive Hrange Hyes.
  assert (Hlate : kThreshold <= int64 (timestamp b - req_timestamp req)).
  { rewrite int64_small; [lia|]. unfold kThreshold in Hrange. lia. }
  unfold deliverFrame_1_1. unfold bind at 1.
  rewrite (fanOut_drains m b Hs). rewrite Hq.
  cbn [drainRequests]. unfold bind at 1. unfold bind at 1.
  unfold modifyCam at 1. unfold bind at 1.
  match goal with
  | |- context [serveRequest b req 0 ?m0] =>
      rewrite (serveRequest_offered m0 b req 0)
  end; [|exact Hlive|exact Hlate].
  cbn [swapped cam world trace fst snd]. rewrite Hyes.
  cbn [set_mCurrentRequests set_mNextRequests mTimelines]. rewrite Ht.
  reflexivity.
Qed.
End Fences.

(** ** The direct track *)

Section Direct.
Context {World : Type} `{!Collaborators World}.
Variable refKind : IntKind.

Lemma directClients_stable (w w' : World) sync clients :
  (forall c, vc_alive w' c = vc_alive w c) ->
  (forall c, vc_getVersion w' c = vc_getVersion w c) ->
  directClients w' sync clients = directClients w sync clients.
Proof.
  intros Ha Hv. unfold directClients. apply filter_ext. intros c.
  rewrite (promote_stable w w' Ha), Hv. reflexivity.
Qed.

Lemma directClients_without_sync w clients :
  directClients w false clients = liveClients w clients.
Proof.
  unfold directClients, liveClients. apply filter_ext. intros c.
  cbn [andb]. rewrite orb_false_r. reflexivity.
Qed.

Lemma resizeRequests_app evs1 evs2 :
  resizeRequests (evs1 ++ evs2) = resizeRequests evs1 ++ resizeRequests evs2.
Proof. unfold resizeRequests. apply omap_app. Qed.

Lemma resizeRequests_deliveries evs :
  Forall isDelivery evs -> resizeRequests evs = [].
Proof.
  induction 1 as [|e evs He _ IH]; [reflexivity|].
  destruct e; try contradiction. exact IH.
Qed.

(** The loop over the members offers the frame once to each member it
    does not skip, in order. *)
Lemma forwardFrame_serves b sync :
  deliverKeepsClients World ->
  forall clients n (m : Machine World),
  0 <= n < 2 ^ 32 ->
  exists n' m' evs,
    forwardFrame b sync clients n m = Some (n', m')
    /\ cam m' = cam m
    /\ trace m' = trace m ++ evs
    /\ Forall isDelivery evs
    /\ offeredTo evs = directClients (world m) sync clients
    /\ (length evs <= length clients)%nat
    /\ n' = wrap32 (n + acceptances evs).
Proof.
  intros Hkeep. induction clients as [|c rest IH]; intros n m Hn.
  - exists n, m, []. cbn [forwardFrame]. unfold ret.
    rewrite app_nil_r, Z.add_0_r, wrap32_small by exact Hn.
    repeat split; auto.
  - cbn [forwardFrame]. run_op. unfold directClients. cbn [List.filter].
    destruct ((promote (world m) c =? nullptr)
              || sync && (0 <? vc_getVersion (world m) (promote (world m) c)))
      eqn:Hskip; cbn [negb].
    + destruct (IH n m Hn)
        as (n2 & m2 & evs2 & H1 & H2 & H3 & H4 & H5 & H6 & H7).
      exists n2, m2, evs2. repeat split; auto. cbn [length]. lia.
    + apply orb_false_iff in Hskip as [Hp _].
      rewrite (promote_of_live _ _ Hp).
      pose proof (Hkeep (world m) c b) as Hk.
      destruct (vc_deliverFrame (world m) c b) as [accepted w1];
        cbn [fst snd] in *.
      set (m1 := mkMachine (cam m) w1
                   (trace m ++ [VcDeliverFrame c b accepted])).
      set (n1 := if accepted then wrap32 (n + 1) else n).
      assert (Hn1 : 0 <= n1 < 2 ^ 32).
      { subst n1. destruct accepted; [apply wrap32_range|exact Hn]. }
      destruct (IH n1 m1 Hn1)
        as (n2 & m2 & evs2 & H1 & H2 & H3 & H4 & H5 & H6 & H7).
      exists n2, m2, (VcDeliverFrame c b accepted :: evs2).
      split; [exact H1|]. split; [exact H2|].
      split; [rewrite H3; subst m1; cbn [trace];
              rewrite <- app_assoc; reflexivity|].
      split; [constructor; [exact I|exact H4]|].
      split.
      { change (offeredTo (VcDeliverFrame c b accepted :: evs2))
          with (c :: offeredTo evs2).
        rewrite H5. subst m1. cbn [world]. f_equal.
        apply directClients_stable; intros c'; apply (Hk c'). }
      split; [cbn [length]; lia|].
      rewrite H7. subst n1. destruct accepted; cbn [acceptances].
      * rewrite wrap32_add_l. f_equal. lia.
      * reflexivity.
Qed.

(** Both tracks when no request has to be drained. *)
Lemma fanOut_direct (m : Machine World) (b : BufferDesc) :
  (mSyncSupported (cam m) = true -> mNextRequests (cam m) = []) ->
  deliverKeepsClients World ->
  Z.of_nat (length (mClients (cam m))) < 2 ^ 31 ->
  exists m' evs,
    fanOut b m = Some (acceptances evs, m')
    /\ trace m' = trace m ++ evs
    /\ Forall isDelivery evs
    /\ offeredTo evs
       = directClients (world m) (mSyncSupported (cam m)) (mClients (cam m))
    /\ mFrames (cam m') = mFrames (cam m)
    /\ mFramesNotUsed (cam m') = mFramesNotUsed (cam m)
    /\ mTimelines (cam m') = mTimelines (cam m)
    /\ mClients (cam m') = mClients (cam m).
Proof.
  intros Hq Hkeep Hsize.
  assert (H0 : 0 <= 0 < 2 ^ 32) by (cbv; split; congruence).
  unfold fanOut. unfold bind at 1. unfold getCam at 1.
  destruct (mSyncSupported (cam m)) eqn:Hs.
  - rewrite (Hq eq_refl). cbn [drainRequests].
    unfold bind at 1. unfold bind at 1. unfold modifyCam at 1.
    unfold ret at 1. unfold bind at 1. unfold modifyCam at 1.
    cbn [cam world trace]. unfold bind at 1.
    match goal with
    | |- context [forwardFrame b true ?l 0 ?m3] =>
        destruct (forwardFrame_serves b true Hkeep l 0 m3 H0)
          as (n3 & m4 & evs & Hrun & Hcam & Htr & Hdel & Hoff & Hlen & Hn3)
    end.
    rewrite Hrun. unfold ret. cbn [cam world trace] in *.
    pose proof (acceptances_bound evs) as Hacc.
    assert (Hv : wrap32 (n3 + 0) = acceptances evs).
    { rewrite Hn3, Z.add_0_l, Z.add_0_r.
      rewrite (wrap32_small (acceptances evs)) by lia.
      apply wrap32_small. lia. }
    rewrite Hv. exists m4, evs. rewrite Hcam.
    repeat split; auto.
  - unfold bind at 1. unfold ret at 1.
    unfold bind at 1. unfold modifyCam at 1.
    cbn [cam world trace]. unfold bind at 1.
    match goal with
    | |- context [forwardFrame b false ?l 0 ?m3] =>
        destruct (forwardFrame_serves b false Hkeep l 0 m3 H0)
          as (n3 & m4 & evs & Hrun & Hcam & Htr & Hdel & Hoff & Hlen & Hn3)
    end.
    rewrite Hrun. unfold ret. cbn [cam world trace] in *.
    pose proof (acceptances_bound evs) as Hacc.
    assert (Hv : wrap32 (n3 + 0) = acceptances evs).
    { rewrite Hn3, Z.add_0_l, Z.add_0_r.
      rewrite (wrap32_small (acceptances evs)) by lia.
      apply wrap32_small. lia. }
    rewrite Hv. exists m4, evs. rewrite Hcam.
    repeat split; auto.
Qed.

(** X14: when no request is waiting (or the session has no fence
    support), deliverFrame_1_1 offers the frame exactly once, in
    membership order, to every live member, leaving out the fence-aware
    ones on a session with fence support; it touches no timeline, and it
    hands the buffer back to the hardware exactly when nobody accepted. *)
Theorem deliverFrame_1_1_direct_track (m : Machine World) (b : BufferDesc)
    (rest : list BufferDesc) :
  (mSyncSupported (cam m) = true -> mNextRequests (cam m) = []) ->
  deliverKeepsClients World ->
  Z.of_nat (length (mClients (cam m))) < 2 ^ 31 ->
  exists m' evs,
    deliverFrame_1_1 refKind (b :: rest) m = Some (tt, m')
    /\ Forall isDelivery evs
    /\ offeredTo evs
       = directClients (world m) (mSyncSupported (cam m)) (mClients (cam m))
    /\ (mSyncSupported (cam m) = false ->
          offeredTo evs = liveClients (world m) (mClients (cam m)))
    /\ trace m'
       = trace m ++ evs
         ++ (if acceptances evs =? 0 then [HwDoneWithFrame_1_1 (b :: rest)]
             else [])
    /\ mTimelines (cam m') = mTimelines (cam m).
Proof.
  intros Hq Hkeep Hsize.
  destruct (fanOut_direct m b Hq Hkeep Hsize)
    as (m1 & evs & Hrun & Htr & Hdel & Hoff & _ & _ & Htl & _).
  pose proof (acceptances_bound evs) as Hacc.
  unfold deliverFrame_1_1. unfold bind at 1. rewrite Hrun.
  assert (Hnosync : mSyncSupported (cam m) = false ->
                    offeredTo evs = liveClients (world m) (mClients (cam m))).
  { intros Hs. rewrite Hoff, Hs. apply directClients_without_sync. }
  destruct (Z.ltb_spec (acceptances evs) 1) as [Hzero|Hsome].
  - assert (Ez : (acceptances evs =? 0) = true) by (apply Z.eqb_eq; lia).
    run_op. eexists _, evs. split; [reflexivity|].
    cbn [cam trace set_mFramesNotUsed mTimelines].
    rewrite Htr, <- app_assoc, Ez. repeat split; auto.
  - assert (Ez : (acceptances evs =? 0) = false) by (apply Z.eqb_neq; lia).
    run_op. eexists _, evs. split; [reflexivity|].
    cbn [cam trace set_mFrames mTimelines].
    rewrite Htr, Ez, app_nil_r. repeat split; auto.
Qed.

Lemma eraseClient_live w c : forall clients,
  c <> nullptr ->
  vc_alive w c = true ->
  NoDup clients ->
  eraseClient w c clients = without c clients.
Proof.
  intros clients Hc Halive. induction 1 as [|x clients Hx Hnd IH].
  - reflexivity.
  - cbn [eraseClient]. unfold without. cbn [List.filter].
    destruct (Z.eqb_spec x c) as [->|Hne].
    + rewrite (promote_live _ _ Hc Halive), Z.eqb_refl. cbn [negb].
      symmetry. apply (without_absent c clients Hx).
    + assert (E : (promote w x =? c) = false).
      { apply Z.eqb_neq. destruct (promote_cases w x); congruence. }
      rewrite E. cbn [negb]. f_equal. exact IH.
Qed.

Lemma clientStreamEnding_clients (m : Machine World) (c : Z) :
  exists m' evs,
    clientStreamEnding c m = Some (tt, m')
    /\ mClients (cam m') = eraseClient (world m) c (mClients (cam m))
    /\ mSyncSupported (cam m') = mSyncSupported (cam m)
    /\ mCurrentRequests (cam m') = mCurrentRequests (cam m)
    /\ world m' = world m
    /\ trace m' = trace m ++ evs
    /\ resizeRequests evs = []
    /\ offeredTo evs = []
    /\ match eraseRequest c (mNextRequests (cam m)) with
       | Some reqs => mNextRequests (cam m') = reqs
       | None => mNextRequests (cam m') = mNextRequests (cam m)
       end.
Proof.
  unfold clientStreamEnding. run_op.
  destruct (eraseRequest c (mNextRequests (cam m))) as [reqs|];
    [destruct (mTimelines (cam m) !! c) as [t|]|];
    cbn [cam world trace set_mClients set_mNextRequests set_mTimelines
         mClients];
    match goal with
    | |- context [fold_left ?f ?l ?a] => destruct (fold_left f l a)
    end;
    cbn [cam world trace];
    eexists _, _; (split; [reflexivity|]); cbn [cam world trace];
    rewrite <- ?app_assoc;
    repeat split;
    try (symmetry; apply app_nil_r); try reflexivity.
Qed.

(** X15: clientStreamEnding takes the live caller off a membership list
    without duplicates, of fewer than 2^31 entries, without asking the
    hardware for another buffer count.  When, on a session with fence
    support, the next queue held nothing but at most one request, the
    caller's, the next frame that arrives is not offered to that client,
    whether it streams again or not: nothing puts it back on the list.
    Offering a frame is taken to destroy no client object, create none
    and change no client's interface version. *)
Theorem clientStreamEnding_detaches (m : Machine World) (c : Z)
    (b : BufferDesc) (rest : list BufferDesc) :
  c <> nullptr ->
  vc_alive (world m) c = true ->
  NoDup (mClients (cam m)) ->
  (mSyncSupported (cam m) = true ->
   forall r, r ∈ mNextRequests (cam m) -> client r = c) ->
  (mSyncSupported (cam m) = true ->
   NoDup (requesters (mNextRequests (cam m)))) ->
  deliverKeepsClients World ->
  Z.of_nat (length (mClients (cam m))) < 2 ^ 31 ->
  exists m1 evs1 m2 evs2,
    clientStreamEnding c m = Some (tt, m1)
    /\ mClients (cam m1) = without c (mClients (cam m))
    /\ trace m1 = trace m ++ evs1
    /\ resizeRequests evs1 = []
    /\ deliverFrame_1_1 refKind (b :: rest) m1 = Some (tt, m2)
    /\ trace m2 = trace m1 ++ evs2
    /\ (c ∉ offeredTo evs2).
Proof.
  intros Hc Halive Hnd Honly Hone Hkeep Hsize.
  destruct (clientStreamEnding_clients m c)
    as (m1 & evs1 & Hrun1 & Hcl & Hs1 & _ & Hw1 & Htr1 & Hres & _ & Hq1).
  rewrite (eraseClient_live _ _ _ Hc Halive Hnd) in Hcl.
  assert (Hempty : mSyncSupported (cam m1) = true -> mNextRequests (cam m1) = []).
  { rewrite Hs1. intros Hs. specialize (Honly Hs). specialize (Hone Hs).
    destruct (eraseRequest c (mNextRequests (cam m))) as [reqs|] eqn:He.
    - rewrite Hq1. destruct (eraseRequest_single c _ _ He Hone) as [Hgone _].
      destruct reqs as [|r reqs]; [reflexivity|]. exfalso. apply Hgone.
      assert (Hr : r ∈ mNextRequests (cam m)).
      { apply (elem_of_sublist (r :: reqs)); [apply elem_of_cons; auto|].
        apply (eraseRequest_sublist c). exact He. }
      rewrite <- (Honly r Hr). cbn. apply elem_of_cons. auto.
    - rewrite Hq1. apply eraseRequest_None in He.
      destruct (mNextRequests (cam m)) as [|r reqs]; [reflexivity|].
      exfalso. apply He. rewrite <- (Honly r); [|apply elem_of_cons; auto].
      cbn. apply elem_of_cons. auto. }
  assert (Hsize1 : Z.of_nat (length (mClients (cam m1))) < 2 ^ 31).
  { rewrite Hcl. unfold without.
    pose proof (List.filter_length_le (fun x => negb (x =? c)) (mClients (cam m))).
    lia. }
  destruct (fanOut_direct m1 b Hempty Hkeep Hsize1)
    as (m2 & evs & Hrun & Htr & Hdel & Hoff & _).
  assert (Hnot : c ∉ offeredTo evs).
  { rewrite Hoff, Hcl. unfold directClients. intros Hin.
    apply list_elem_of_In in Hin. apply filter_In in Hin as [Hin _].
    apply list_elem_of_In in Hin. apply without_spec in Hin. tauto. }
  assert (Hdeliver : exists m3 evs2,
             deliverFrame_1_1 refKind (b :: rest) m1 = Some (tt, m3)
             /\ trace m3 = trace m1 ++ evs2
             /\ (c ∉ offeredTo evs2)).
  { unfold deliverFrame_1_1. unfold bind at 1. rewrite Hrun.
    destruct (acceptances evs <? 1); run_op.
    - eexists _, (evs ++ [HwDoneWithFrame_1_1 (b :: rest)]).
      split; [reflexivity|]. cbn [trace].
      split; [rewrite Htr, <- app_assoc; reflexivity|].
      rewrite offeredTo_app. cbn. rewrite app_nil_r. exact Hnot.
    - eexists _, evs. split; [reflexivity|]. cbn [trace].
      split; [exact Htr|exact Hnot]. }
  destruct Hdeliver as (m3 & evs2 & Hrun2 & Htr2 & Hnot2).
  exists m1, evs1, m3, evs2. repeat split; assumption.
Qed.
End Direct.

(** ** Buffer counts over a whole session *)

Section Sessions.
Context {World : Type} `{!Collaborators World}.
Variable refKind : IntKind.

Lemma requestedBufferCount_range w clients delta :
  1 <= requestedBufferCount w clients delta < 2 ^ 32.
Proof.
  rewrite requestedBufferCount_wrapped.
  pose proof (wrap32_range (liveAllowanceSum w clients + delta)). lia.
Qed.

Lemma serveRequest_trace (m m' : Machine World) b req n n' :
  serveRequest b req n m = Some (n', m') ->
  exists evs, trace m' = trace m ++ evs /\ resizeRequests evs = [].
Proof.
  unfold serveRequest. run_op. split_cases.
  all: intros [= <- <-]; cbn [trace]; no_resize.
Qed.

Lemma drainRequests_trace b : forall reqs n (m : Machine World) n' m',
  drainRequests b reqs n m = Some (n', m') ->
  exists evs, trace m' = trace m ++ evs /\ resizeRequests evs = [].
Proof.
  induction reqs as [|req rest IH]; intros n m n' m'.
  - intros [= <- <-]. no_resize.
  - cbn [drainRequests]. unfold bind at 1. unfold modifyCam at 1.
    unfold bind at 1.
    match goal with
    | |- context [serveRequest b req n ?m0] =>
        destruct (serveRequest b req n m0) as [[n1 m1]|] eqn:Hserve;
        [|discriminate]
    end.
    apply serveRequest_trace in Hserve as (evs1 & Htr1 & Hno1).
    cbn [trace] in Htr1.
    intros Hrest. apply IH in Hrest as (evs2 & Htr2 & Hno2).
    exists (evs1 ++ evs2). split.
    + rewrite Htr2, Htr1, app_assoc. reflexivity.
    + rewrite resizeRequests_app, Hno1, Hno2. reflexivity.
Qed.

Lemma forwardFrame_trace b sync clients (m m' : Machine World) n' :
  forwardFrame b sync clients 0 m = Some (n', m') ->
  exists evs, trace m' = trace m ++ evs /\ resizeRequests evs = [].
Proof.
  intros Hrun.
  destruct (forwardFrame_runs b sync clients 0 m)
    as (n2 & m2 & evs & Hrun2 & _ & Htr & Hdel & _); [cbv; split; congruence|].
  rewrite Hrun in Hrun2. injection Hrun2 as <- <-.
  exists evs. split; [exact Htr|]. apply resizeRequests_deliveries. exact Hdel.
Qed.

Lemma fanOut_trace (m m' : Machine World) b total :
  fanOut b m = Some (total, m') ->
  exists evs, trace m' = trace m ++ evs /\ resizeRequests evs = [].
Proof.
  unfold fanOut. unfold bind at 1. unfold getCam at 1.
  destruct (mSyncSupported (cam m)).
  - unfold bind at 1. unfold bind at 1. unfold modifyCam at 1.
    match goal with
    | |- context [drainRequests b ?l 0 ?m0] =>
        destruct (drainRequests b l 0 m0) as [[n1 m1]|] eqn:Hdrain;
        [|discriminate]
    end.
    apply drainRequests_trace in Hdrain as (evs1 & Htr1 & Hno1).
    cbn [trace] in Htr1.
    unfold bind at 1. unfold modifyCam at 1. unfold bind at 1.
    match goal with
    | |- context [forwardFrame b ?s ?l 0 ?m2] =>
        destruct (forwardFrame b s l 0 m2) as [[n3 m3]|] eqn:Hfwd;
        [|discriminate]
    end.
    apply forwardFrame_trace in Hfwd as (evs3 & Htr3 & Hno3).
    cbn [trace] in Htr3.
    intros [= <- <-]. exists (evs1 ++ evs3). split.
    + rewrite Htr3, Htr1, app_assoc. reflexivity.
    + rewrite resizeRequests_app, Hno1, Hno3. reflexivity.
  - unfold bind at 1. unfold ret at 1.
    unfold bind at 1. unfold modifyCam at 1. unfold bind at 1.
    match goal with
    | |- context [forwardFrame b ?s ?l 0 ?m2] =>
        destruct (forwardFrame b s l 0 m2) as [[n3 m3]|] eqn:Hfwd;
        [|discriminate]
    end.
    apply forwardFrame_trace in Hfwd as (evs3 & Htr3 & Hno3).
    cbn [trace] in Htr3.
    intros [= <- <-]. exists evs3. auto.
Qed.

Lemma requestNewFrame_trace (m m' : Machine World) c ts r :
  requestNewFrame c ts m = Some (r, m') -> trace m' = trace m.
Proof.
  unfold requestNewFrame. run_op. split_cases.
  all: intros [= <- <-]; reflexivity.
Qed.

Lemma perform_resizes (m m' : Machine World) call :
  perform refKind call m = Some (tt, m') ->
  exists evs,
    trace m' = trace m ++ evs
    /\ Forall (fun n => 1 <= n < 2 ^ 32) (resizeRequests evs)
    /\ (resizes call = false -> resizeRequests evs = []).
Proof.
  destruct call as [vc|vc|c ts|c|buffer|buffer]; cbn [perform resizes].
  - unfold bind. destruct (Z.eq_dec vc nullptr) as [->|Hvc].
    + cbn. intros [= <-]. exists []. rewrite app_nil_r.
      split; [reflexivity|]. split; [cbn; apply List.Forall_nil|discriminate].
    + rewrite (ownVirtualCamera_runs m vc Hvc). intros [= <-].
      cbn [trace].
      match goal with
      | |- context [(trace m ++ [?e]) ++ ?tail] =>
          exists ([e] ++ tail);
          assert (Htail : resizeRequests tail = [])
      end.
      { destruct (hw_setMaxFramesInFlight _ _).1;
          [apply resizeRequests_replacedTimeline|reflexivity]. }
      split; [rewrite <- app_assoc; reflexivity|].
      rewrite resizeRequests_app, Htail. cbn.
      split; [|discriminate].
      constructor; [apply requestedBufferCount_range|constructor].
  - destruct (Z.eq_dec vc nullptr) as [->|Hvc].
    + cbn. intros [= <-]. exists []. rewrite app_nil_r.
      split; [reflexivity|]. split; [cbn; apply List.Forall_nil|discriminate].
    + rewrite (disownVirtualCamera_runs m vc Hvc). intros [= <-].
      eexists [_]. split; [reflexivity|]. cbn.
      split; [|discriminate].
      constructor; [apply requestedBufferCount_range|constructor].
  - unfold bind.
    destruct (requestNewFrame c ts m) as [[r m1]|] eqn:Hreq; [|discriminate].
    intros [= <-]. apply requestNewFrame_trace in Hreq.
    exists []. rewrite app_nil_r. split; [exact Hreq|].
    split; [cbn; apply List.Forall_nil|reflexivity].
  - intros Hrun.
    destruct (clientStreamEnding_clients m c)
      as (m1 & evs & Hrun1 & _ & _ & _ & _ & Htr & Hno & _).
    rewrite Hrun in Hrun1. injection Hrun1 as <-.
    exists evs. rewrite Hno. split; [exact Htr|]. split; [cbn; apply List.Forall_nil|reflexivity].
  - unfold deliverFrame_1_1. destruct buffer as [|b rest]; [discriminate|].
    unfold bind at 1.
    destruct (fanOut b m) as [[total m1]|] eqn:Hfan; [|discriminate].
    apply fanOut_trace in Hfan as (evs & Htr & Hno).
    run_op. destruct (total <? 1); intros [= <-]; cbn [trace].
    + exists (evs ++ [HwDoneWithFrame_1_1 (b :: rest)]).
      rewrite Htr, <- app_assoc, resizeRequests_app, Hno.
      split; [reflexivity|]. split; [cbn; apply List.Forall_nil|reflexivity].
    + exists evs. rewrite Hno. split; [exact Htr|].
      split; [cbn; apply List.Forall_nil|reflexivity].
  - unfold doneWithFrame_1_1. run_op. split_cases.
    all: intros [= <-]; cbn [trace].
    + eexists [_]. split; [reflexivity|]. split; [cbn; apply List.Forall_nil|reflexivity].
    + exists []. rewrite app_nil_r. split; [reflexivity|].
      split; [cbn; apply List.Forall_nil|reflexivity].
    + exists []. rewrite app_nil_r. split; [reflexivity|].
      split; [cbn; apply List.Forall_nil|reflexivity].
Qed.

(** X16: over any sequence of attach, detach, request, stream-ending,
    frame-delivery and completion calls, every buffer count the hardware
    is asked for lies between 1 and 2^32 - 1; only attach and detach ask
    for one. *)
Theorem session_buffer_counts (calls : list Call) :
  forall (m0 m : Machine World),
  performAll refKind calls m0 = Some m ->
  exists evs,
    trace m = trace m0 ++ evs
    /\ Forall (fun n => 1 <= n < 2 ^ 32) (resizeRequests evs)
    /\ (forallb (fun call => negb (resizes call)) calls = true ->
        resizeRequests evs = []).
Proof.
  induction calls as [|call rest IH]; intros m0 m; cbn [performAll forallb].
  - intros [= <-]. exists []. rewrite app_nil_r.
    split; [reflexivity|]. split; [cbn; apply List.Forall_nil|reflexivity].
  - destruct (perform refKind call m0) as [[[] m1]|] eqn:Hrun; [|discriminate].
    intros Hrest. apply IH in Hrest as (evs2 & Htr2 & Hin2 & Hnone2).
    pose proof (perform_resizes _ _ _ Hrun) as (evs1 & Htr1 & Hin1 & Hnone1).
    exists (evs1 ++ evs2).
    split; [rewrite Htr2, Htr1, app_assoc; reflexivity|].
    split; [rewrite resizeRequests_app; apply Forall_app; auto|].
    intros Hall. apply andb_true_iff in Hall as [Hcall Hall].
    apply negb_true_iff in Hcall.
    rewrite resizeRequests_app, (Hnone1 Hcall), (Hnone2 Hall). reflexivity.
Qed.
End Sessions.

(** ** Null pointers *)

Section Null.
Context {World : Type} `{!Collaborators World}.

Lemma eraseClient_first_dead w : forall pre x post,
  Forall (fun y => promote w y <> nullptr) pre ->
  promote w x = nullptr ->
  eraseClient w nullptr (pre ++ x :: post) = pre ++ post.
Proof.
  induction pre as [|y pre IH]; intros x post Hpre Hx.
  - cbn. rewrite Hx. reflexivity.
  - apply Forall_cons in Hpre as [Hy Hpre]. cbn [app eraseClient].
    apply Z.eqb_neq in Hy. rewrite Hy. f_equal. apply IH; assumption.
Qed.

(** X17: in every state ownVirtualCamera and disownVirtualCamera ignore
    a null client: the first answers false, neither changes anything nor
    calls the hardware.  clientStreamEnding does not check for null:
    called with nullptr on a membership list that has a dead entry, it
    takes the first dead entry off the list and asks the hardware for no
    buffer count. *)
Theorem null_client_calls (m : Machine World) :
  ownVirtualCamera nullptr m = Some (false, m)
  /\ disownVirtualCamera nullptr m = Some (tt, m)
  /\ (forall (pre post : list Z) (x : Z),
        mClients (cam m) = pre ++ x :: post ->
        Forall (fun y => promote (world m) y <> nullptr) pre ->
        promote (world m) x = nullptr ->
        exists m' evs,
          clientStreamEnding nullptr m = Some (tt, m')
          /\ mClients (cam m') = pre ++ post
          /\ trace m' = trace m ++ evs
          /\ resizeRequests evs = []).
Proof.
  split; [reflexivity|]. split; [reflexivity|].
  intros pre post x Hcl Hpre Hx.
  destruct (clientStreamEnding_clients m nullptr)
    as (m' & evs & Hrun & Hcl' & _ & _ & _ & Htr & Hno & _).
  exists m', evs. split; [exact Hrun|].
  split; [|split; [exact Htr|exact Hno]].
  rewrite Hcl', Hcl. apply eraseClient_first_dead; assumption.
Qed.
End Null.

(** ** The further properties on the test bench *)

(** Client 20 attaches a second time: six buffers, and the timeline it
    had is destroyed. *)
Lemma ownVirtualCamera_accepted_witness :
  exists m',
    ownVirtualCamera 20 (start (fenced []) bench0) = Some (true, m')
    /\ trace m' = [HwSetMaxFramesInFlight 6;
                   TimelineDestroyed 20 (mkTimeline 0 1)]
    /\ mClients (cam m') = [10; 20; 20]
    /\ mTimelines (cam m') !! 20 = Some (mkTimeline 0 0).
Proof.
  destruct (ownVirtualCamera_accepted (start (fenced []) bench0) 20)
    as (m' & Hrun & Htr & Hcl & _ & Htl & _).
  - vm_compute. congruence.
  - reflexivity.
  - exists m'. split; [exact Hrun|]. split; [exact Htr|].
    split; [exact Hcl|]. rewrite Htl. reflexivity.
Defined.

(** The hardware refuses: no client is handed out. *)
Lemma makeVirtualCamera_result_witness :
  exists r m',
    makeVirtualCamera 10 (start (newHalCamera true) benchRefusing)
    = Some (r, m')
    /\ r = nullptr
    /\ cam m' = newHalCamera true.
Proof.
  destruct (makeVirtualCamera_result
              (start (newHalCamera true) benchRefusing) 10)
    as (r & m' & Hrun & Hr & Hsame & _).
  - vm_compute. congruence.
  - exists r, m'. split; [exact Hrun|]. split; [exact Hr|].
    apply Hsame. exact Hr.
Defined.

(** Client 10 leaves client 20 behind: two buffers. *)
Lemma disownVirtualCamera_detaches_witness :
  exists m',
    disownVirtualCamera 10 (start (masterIs nullptr) bench0) = Some (tt, m')
    /\ mClients (cam m') = [20]
    /\ trace m' = [HwSetMaxFramesInFlight 2].
Proof.
  destruct (disownVirtualCamera_detaches (start (masterIs nullptr) bench0) 10)
    as (m' & Hrun & Hcl & _ & _ & Htr & _).
  - vm_compute. congruence.
  - exists m'. split; [exact Hrun|]. split; [exact Hcl|exact Htr].
Defined.

(** Client 20 joins client 10 and leaves again. *)
Lemma attach_detach_round_trip_witness :
  exists m',
    andThen (ownVirtualCamera 20) (disownVirtualCamera 20)
      (start (set_mClients [10] (newHalCamera true)) bench0)
    = Some (tt, m')
    /\ mClients (cam m') = [10]
    /\ mTimelines (cam m') = <[20 := mkTimeline 0 0]> ∅.
Proof.
  destruct (attach_detach_round_trip
              (start (set_mClients [10] (newHalCamera true)) bench0) 20)
    as (m' & Hrun & Hcl & _ & Htl & _).
  - vm_compute. congruence.
  - intros Hin. apply list_elem_of_singleton in Hin. discriminate Hin.
  - reflexivity.
  - reflexivity.
  - exists m'. split; [exact Hrun|]. split; [exact Hcl|exact Htl].
Defined.

(** The hardware reports the end of the stream while it is RUNNING. *)
Lemma notify_forwards_witness :
  exists m',
    notify streamStopped
      (start (set_mStreamState RUNNING (masterIs nullptr)) bench0)
    = Some (tt, m')
    /\ mStreamState (cam m') = STOPPED
    /\ trace m' = [VcNotify 10 streamStopped; VcNotify 20 streamStopped].
Proof.
  destruct (notify_forwards
              (start (set_mStreamState RUNNING (masterIs nullptr)) bench0)
              streamStopped)
    as (m' & Hrun & Hcam & Htr).
  - intros w c e c'. reflexivity.
  - exists m'. split; [exact Hrun|]. rewrite Hcam. split; [reflexivity|exact Htr].
Defined.

(** Client 10, the last one around, ends its stream. *)
Lemma stop_then_restart_witness :
  exists m1 m3 : Machine Bench,
    clientStreamEnding 10
      (start (set_mStreamState RUNNING (set_mClients [10] (newHalCamera false)))
         benchIdle)
    = Some (tt, m1)
    /\ mStreamState (cam m1) = STOPPING
    /\ clientStreamStarting m1 = Some (OK, m1)
    /\ mStreamState (cam m3) = RUNNING.
Proof.
  destruct (stop_then_restart
              (start (set_mStreamState RUNNING
                        (set_mClients [10] (newHalCamera false))) benchIdle) 10)
    as (m1 & m2 & r & m3 & evs1 & evs2 & H1 & H2 & _ & H4 & _ & _ & _ & _ & _
        & H10 & _).
  - intros x _ _. reflexivity.
  - exists m1, m3. repeat split; assumption.
Defined.

(** Client 10 gives the role up; client 20 cannot give up what it has
    not got. *)
Lemma unsetMaster_releases_witness :
  (exists m',
     unsetMaster 10 (start (masterIs 10) bench0) = Some (OK, m')
     /\ cam m' = masterIs nullptr
     /\ trace m' = [VcNotify 10 masterReleased; VcNotify 20 masterReleased])
  /\ unsetMaster 20 (start (masterIs 10) bench0)
     = Some (INVALID_ARG, start (masterIs 10) bench0).
Proof.
  assert (H20 : (20 : Z) <> nullptr) by (vm_compute; congruence).
  assert (H10 : (10 : Z) <> nullptr) by (vm_compute; congruence).
  assert (Hk : notifyKeepsClients Bench) by (intros w c e c'; reflexivity).
  assert (Ha : forall c, memZ c [10; 20] = true -> vc_alive bench0 c = true)
    by (intros c Hin; exact Hin).
  split.
  - destruct (unsetMaster_releases (start (masterIs 10) bench0) 10 H10
                (Ha 10 eq_refl) Hk) as [Hyes _].
    destruct (Hyes eq_refl) as (m' & Hrun & Hcam & Htr & _).
    exists m'. split; [exact Hrun|]. split; [exact Hcam|exact Htr].
  - apply (unsetMaster_releases (start (masterIs 10) bench0) 20 H20
             (Ha 20 eq_refl) Hk).
    vm_compute. congruence.
Defined.

(** Frame 7 is held twice: the second completion returns it. *)
Lemma completions_return_once_witness :
  exists m' evs,
    times 2 (doneWithFrame_1_1 UnsignedInt frame7) (start holding bench0)
    = Some (tt, m')
    /\ mFrames (cam m') !! 0%nat = Some (mkFrameRecord 7 0)
    /\ trace m' = evs
    /\ returnedBuffers evs = [frame7].
Proof.
  apply (completions_return_once UnsignedInt (start holding bench0) frame7
           (mkFrameRecord 7 2) 2 2).
  - reflexivity.
  - reflexivity.
  - vm_compute. reflexivity.
  - lia.
Defined.

(** Nobody holds a frame 9. *)
Lemma doneWithFrame_unknown_id_witness :
  doneWithFrame SignedInt (mkBuffer 9 0) (start holding bench0)
  = Some (tt, start holding bench0)
  /\ doneWithFrame_1_1 SignedInt (mkBuffer 9 0) (start holding bench0)
     = Some (tt, start holding bench0).
Proof.
  apply (doneWithFrame_unknown_id SignedInt (start holding bench0)
           (mkBuffer 9 0)).
  repeat constructor; cbn; congruence.
Defined.

(** A resize drops the stale record of frame 8 and keeps frame 7. *)
Lemma resize_keeps_records_in_use_witness :
  exists m',
    changeFramesInFlight 0 (start holding bench0) = Some (true, m')
    /\ mFrames (cam m') !! findFrame 7 (mFrames (cam m'))
       = Some (mkFrameRecord 7 2)
    /\ doneWithFrame_1_1 SignedInt (mkBuffer 8 0) m' = Some (tt, m').
Proof.
  destruct (resize_keeps_records_in_use SignedInt (start holding bench0) 0
              frame7) as (m' & Hrun & _ & Hkeep & _); [reflexivity|].
  destruct (resize_keeps_records_in_use SignedInt (start holding bench0) 0
              (mkBuffer 8 0)) as (m'' & Hrun' & _ & _ & Hstale); [reflexivity|].
  rewrite Hrun in Hrun'. injection Hrun' as <-.
  exists m'. split; [exact Hrun|]. split.
  - apply (Hkeep (mkFrameRecord 7 2)); [reflexivity|vm_compute; reflexivity].
  - apply Hstale. intros r Hin Hid.
    apply elem_of_cons in Hin as [->|Hin]; [discriminate Hid|].
    apply list_elem_of_singleton in Hin. subst r. cbn. lia.
Defined.

(** No fence support; no timeline; a timeline with one fence out. *)
Lemma requestNewFrame_cases_witness :
  requestNewFrame 10 0 (start holding bench0) = Some (None, start holding bench0)
  /\ requestNewFrame 30 0 (start (fenced []) bench0) = None
  /\ exists f m',
       requestNewFrame 10 0 (start (fenced []) bench0) = Some (Some f, m')
       /\ fence_value f = 2
       /\ mNextRequests (cam m') = [mkFrameRequest 10 0].
Proof.
  destruct (requestNewFrame_cases (start holding bench0) 10 0) as (Hno & _).
  destruct (requestNewFrame_cases (start (fenced []) bench0) 30 0)
    as (_ & Hcrash & _).
  destruct (requestNewFrame_cases (start (fenced []) bench0) 10 0)
    as (_ & _ & Hyes).
  split; [apply Hno; reflexivity|].
  split; [apply Hcrash; reflexivity|].
  destruct (Hyes eq_refl (mkTimeline 0 1) eq_refl)
    as (f & m' & Hrun & _ & Hval & Hq & _).
  exists f, m'. split; [exact Hrun|]. split; [exact Hval|exact Hq].
Defined.

(** Client 10 asks at 0 and accepts the frame stamped 100000. *)
Lemma fence_resolved_by_delivery_witness :
  exists f m1 m2,
    requestNewFrame 10 0 (start (fenced []) bench0) = Some (Some f, m1)
    /\ deliverFrame_1_1 UnsignedInt [frame7] m1 = Some (tt, m2)
    /\ mTimelines (cam m2) !! 10 = Some (mkTimeline 1 2)
    /\ mNextRequests (cam m2) = [].
Proof.
  destruct (fence_resolved_by_delivery UnsignedInt
              (start (fenced []) bench0) 10 0 (mkTimeline 0 1) frame7 [])
    as (f & m1 & m2 & r & H1 & H2 & H3 & H4 & _).
  - reflexivity.
  - reflexivity.
  - reflexivity.
  - reflexivity.
  - vm_compute. congruence.
  - split; [vm_compute; congruence|reflexivity].
  - reflexivity.
  - vm_compute. reflexivity.
  - exists f, m1, m2. repeat split; assumption.
Defined.

(** Client 10 asked twice and ended its stream: its second request is
    still queued, its timeline is gone, and the next frame it accepts
    brings the call down. *)
Lemma deliverFrame_1_1_missing_timeline_witness :
  match askTwiceAndEnd with
  | Some m => deliverFrame_1_1 SignedInt [frame7] m = None
  | None => False
  end.
Proof.
  destruct askTwiceAndEnd as [m|] eqn:Hrun.
  - vm_compute in Hrun. injection Hrun as <-.
    apply (deliverFrame_1_1_missing_timeline SignedInt _ frame7 []
             (mkFrameRequest 10 0) []).
    + reflexivity.
    + reflexivity.
    + reflexivity.
    + vm_compute. congruence.
    + split; [vm_compute; congruence|reflexivity].
    + reflexivity.
  - vm_compute in Hrun. discriminate Hrun.
Defined.

(** Two v1.0 clients: both are offered the frame, one takes it. *)
Lemma deliverFrame_1_1_direct_track_witness :
  exists m' evs,
    deliverFrame_1_1 UnsignedInt [frame7]
      (start (set_mClients [10; 20] (newHalCamera false)) benchOld)
    = Some (tt, m')
    /\ offeredTo evs = [10; 20]
    /\ Forall isDelivery evs.
Proof.
  destruct (deliverFrame_1_1_direct_track UnsignedInt
              (start (set_mClients [10; 20] (newHalCamera false)) benchOld)
              frame7 [])
    as (m' & evs & Hrun & Hdel & Hoff & _).
  - intros Hs. discriminate Hs.
  - intros w c b c'. split; reflexivity.
  - vm_compute. reflexivity.
  - exists m', evs. split; [exact Hrun|]. split; [exact Hoff|exact Hdel].
Defined.

(** Client 10 ends its stream.  Without fence support the next frame
    goes to client 20 only; with fence support and the request of client
    10 waiting, the request goes with the client. *)
Lemma clientStreamEnding_detaches_witness :
  (exists (m1 m2 : Machine Bench) evs2,
     clientStreamEnding 10
       (start (set_mClients [10; 20] (newHalCamera false)) benchOld)
     = Some (tt, m1)
     /\ mClients (cam m1) = [20]
     /\ deliverFrame_1_1 UnsignedInt [frame7] m1 = Some (tt, m2)
     /\ trace m2 = trace m1 ++ evs2
     /\ (10 ∉ offeredTo evs2))
  /\ (exists (m1 m2 : Machine Bench) evs2,
        clientStreamEnding 10 (start (fenced [mkFrameRequest 10 0]) bench0)
        = Some (tt, m1)
        /\ mClients (cam m1) = [20]
        /\ deliverFrame_1_1 UnsignedInt [frame7] m1 = Some (tt, m2)
        /\ trace m2 = trace m1 ++ evs2
        /\ (10 ∉ offeredTo evs2)).
Proof.
  split.
  - destruct (clientStreamEnding_detaches UnsignedInt
                (start (set_mClients [10; 20] (newHalCamera false)) benchOld)
                10 frame7 [])
      as (m1 & evs1 & m2 & evs2 & H1 & H2 & _ & _ & H5 & H6 & H7).
    + vm_compute. congruence.
    + reflexivity.
    + apply NoDup_ListNoDup. vm_compute.
      repeat constructor; cbn; intros H; intuition congruence.
    + intros Hs. discriminate Hs.
    + intros Hs. discriminate Hs.
    + intros w c b c'. split; reflexivity.
    + vm_compute. reflexivity.
    + exists m1, m2, evs2. repeat split; assumption.
  - destruct (clientStreamEnding_detaches UnsignedInt
                (start (fenced [mkFrameRequest 10 0]) bench0) 10 frame7 [])
      as (m1 & evs1 & m2 & evs2 & H1 & H2 & _ & _ & H5 & H6 & H7).
    + vm_compute. congruence.
    + reflexivity.
    + apply NoDup_ListNoDup. vm_compute.
      repeat constructor; cbn; intros H; intuition congruence.
    + intros _ r Hr. apply list_elem_of_singleton in Hr. subst r. reflexivity.
    + intros _. apply NoDup_ListNoDup. vm_compute.
      repeat constructor. intros [].
    + intros w c b c'. split; reflexivity.
    + vm_compute. reflexivity.
    + exists m1, m2, evs2. repeat split; assumption.
Defined.

(** One client's short session: the hardware is asked for 2 buffers when
    it attaches and for 1 when it detaches. *)
Lemma session_buffer_counts_witness :
  match performAll SignedInt shortSession (start (newHalCamera true) bench0)
  with
  | Some m =>
      exists evs,
        trace m = evs
        /\ Forall (fun n => 1 <= n < 2 ^ 32) (resizeRequests evs)
  | None => False
  end.
Proof.
  destruct (performAll SignedInt shortSession
              (start (newHalCamera true) bench0)) as [m|] eqn:Hrun.
  - destruct (session_buffer_counts SignedInt shortSession _ m Hrun)
      as (evs & Htr & Hin & _).
    exists evs. split; [exact Htr|exact Hin].
  - vm_compute in Hrun. discriminate Hrun.
Defined.

(** Client 30 is gone; a null stream-ending call takes its entry off. *)
Lemma null_client_calls_witness :
  let m := start (set_mClients [10; 30; 20] (newHalCamera false)) bench0 in
  ownVirtualCamera nullptr m = Some (false, m)
  /\ disownVirtualCamera nullptr m = Some (tt, m)
  /\ exists m' evs,
       clientStreamEnding nullptr m = Some (tt, m')
       /\ mClients (cam m') = [10; 20]
       /\ trace m' = evs
       /\ resizeRequests evs = [].
Proof.
  intros m.
  destruct (null_client_calls m) as (Hown & Hdisown & Hend).
  split; [exact Hown|]. split; [exact Hdisown|].
  apply (Hend [10] [20] 30).
  - reflexivity.
  - repeat constructor. vm_compute. congruence.
  - reflexivity.
Defined.
